(** * mcp-simple-memory: the storage-and-query layer of the memory server

    A shallow embedding of the four tool handlers of the server
    ([SimpleMemoryAdd], [SimpleMemoryList], [SimpleMemorySearch] and
    [SimpleMemoryDelete]) together with the part of the SQL engine that
    the handlers' statements exercise: the [simple_memories] table, its
    AUTOINCREMENT key, [ORDER BY id ASC], three-valued [OR] and the
    [LIKE] operator.

    Go strings reach the handlers through JSON decoding and are therefore
    valid UTF-8; they are modelled as sequences of Unicode code points. *)

From Stdlib Require Import ZArith NArith List String Ascii Lia DecimalString.
From stdpp Require Import gmap strings list fin_maps sorting.

Local Open Scope N_scope.

(** ** Strings *)

Definition rune := N.
Abbreviation gostring := (list rune).

(** A Go string literal with ASCII content. *)
Definition go (s : string) : gostring :=
  List.map N_of_ascii (list_ascii_of_string s).

(** [unicode.IsSpace]: the Latin-1 switch followed by the [White_Space]
    range table. *)
Definition IsSpace (r : rune) : bool :=
  if r <=? 255 then
    (9 <=? r) && (r <=? 13) || (r =? 32) || (r =? 133) || (r =? 160)
  else
    (r =? 5760) || (8192 <=? r) && (r <=? 8202) || (r =? 8232) || (r =? 8233)
    || (r =? 8239) || (r =? 8287) || (r =? 12288).

Fixpoint TrimLeftFunc (f : rune -> bool) (s : gostring) : gostring :=
  match s with
  | [] => []
  | c :: s' => if f c then TrimLeftFunc f s' else s
  end.

Fixpoint TrimRightFunc (f : rune -> bool) (s : gostring) : gostring :=
  match s with
  | [] => []
  | c :: s' =>
      match TrimRightFunc f s' with
      | [] => if f c then [] else [c]
      | t => c :: t
      end
  end.

Definition TrimFunc (f : rune -> bool) (s : gostring) : gostring :=
  TrimRightFunc f (TrimLeftFunc f s).

(** [strings.TrimSpace]. *)
Definition TrimSpace (s : gostring) : gostring := TrimFunc IsSpace s.

(** [s == ""] *)
Definition is_empty (s : gostring) : bool :=
  match s with [] => true | _ => false end.

(** [strings.Join]. *)
Fixpoint Join (elems : list gostring) (sep : gostring) : gostring :=
  match elems with
  | [] => []
  | [e] => e
  | e :: rest => e ++ sep ++ Join rest sep
  end.

(** The verb [%d] on an [int64]. *)
Definition fmt_d (n : Z) : gostring := go (NilZero.string_of_int (Z.to_int n)).

(** ** The LIKE operator of the SQL engine

    The engine reads both operands as NUL-terminated text, compares ASCII
    letters without regard to case, lets [%] stand for any run of
    characters and [_] for any one character.  No ESCAPE clause is given
    by the handlers' statements. *)

Definition matchAll : rune := 37.   (* % *)
Definition matchOne : rune := 95.   (* _ *)

Fixpoint c_str (s : gostring) : gostring :=
  match s with
  | [] => []
  | c :: s' => if c =? 0 then [] else c :: c_str s'
  end.

Definition sqlite3Tolower (c : rune) : rune :=
  if (65 <=? c) && (c <=? 90) then c + 32 else c.

Definition like_char_eq (c c2 : rune) : bool :=
  (c =? c2)
  || (sqlite3Tolower c =? sqlite3Tolower c2) && (c <? 128) && (c2 <? 128).

Fixpoint patternCompare (zPattern zString : gostring) {struct zPattern} : bool :=
  match zPattern with
  | [] => is_empty zString
  | c :: rest =>
      if c =? matchAll then
        (fix skip (z : gostring) : bool :=
           patternCompare rest z
           || match z with
              | [] => false
              | _ :: z' => skip z'
              end) zString
      else
        match zString with
        | [] => false
        | c2 :: z' =>
            (like_char_eq c c2 || (c =? matchOne)) && patternCompare rest z'
        end
  end.

(** [x LIKE pat] on two TEXT operands. *)
Definition likeFunc (pat x : gostring) : bool :=
  patternCompare (c_str pat) (c_str x).

(** SQL truth values: [None] is NULL. *)
Definition sql_bool := option bool.

Definition sql_or (a b : sql_bool) : sql_bool :=
  match a, b with
  | Some true, _ | _, Some true => Some true
  | Some false, Some false => Some false
  | _, _ => None
  end.

(** [col LIKE ?] where the column may hold NULL. *)
Definition sql_like (col : option gostring) (pat : gostring) : sql_bool :=
  match col with
  | None => None
  | Some x => Some (likeFunc pat x)
  end.

(** A WHERE clause keeps a row only when it evaluates to true. *)
Definition sql_true (v : sql_bool) : bool :=
  match v with Some true => true | _ => false end.

(** ** Substring containment, as the specification words it

    [HasPrefix] and [Contains] are plain, case-sensitive containment
    ([strings.Contains]); [fold_contains] is containment once ASCII
    letters of both sides are folded to lower case. *)

Fixpoint HasPrefix (s prefix : gostring) : bool :=
  match prefix, s with
  | [], _ => true
  | c :: p', d :: s' => (c =? d) && HasPrefix s' p'
  | _ :: _, [] => false
  end.

Fixpoint Contains (s substr : gostring) : bool :=
  HasPrefix s substr
  || match s with
     | [] => false
     | _ :: s' => Contains s' substr
     end.

Definition ToLowerASCII (s : gostring) : gostring := List.map sqlite3Tolower s.

Definition fold_contains (s substr : gostring) : bool :=
  Contains (ToLowerASCII s) (ToLowerASCII substr).

(** A query free of the characters the engine treats specially. *)
Definition plain_char (c : rune) : bool :=
  negb (c =? matchAll) && negb (c =? matchOne) && negb (c =? 0).

Definition plain (q : gostring) : bool := forallb plain_char q.

(** The pattern the handlers build, ["%" + query + "%"]. *)
Definition like_pattern (query : gostring) : gostring :=
  go "%" ++ query ++ go "%".

(** ** The store

    Table [simple_memories]: [id INTEGER PRIMARY KEY AUTOINCREMENT], three
    nullable TEXT columns, [content TEXT NOT NULL] and [created_at].  The
    primary key makes the table a finite map from ids to rows. *)

Record Row := {
  row_title : option gostring;      (* TEXT, NULL allowed *)
  row_tags : option gostring;       (* TEXT, NULL allowed *)
  row_status : option gostring;     (* TEXT, NULL allowed *)
  row_content : gostring;           (* TEXT NOT NULL *)
  row_created_at : gostring         (* as the driver hands it to Scan *)
}.

(** The statements the handlers send to the store. *)
Inductive Stmt :=
  | InsertMemory (title tags status content : gostring)
  | SelectAll
  | SelectLike (pat : gostring)
  | DeleteLike (pat : gostring).

Record DB := {
  simple_memories : gmap Z Row;
  sqlite_sequence : Z;          (* largest id handed out so far *)
  issued : list Stmt            (* statements received, oldest first *)
}.

(** What a call finds around it: the store's clock, whether the store
    reports an error for the call's statement ([err] of [db.Exec] and
    [db.Query]: an I/O failure, a LIKE pattern beyond the engine's length
    limit, ...) or while its rows are read ([rows.Err()]), and whether the
    log sink accepts a line. *)
Record Env := {
  now : gostring;
  exec_err : option gostring;
  rows_err : option gostring;
  log_ok : bool
}.

Inductive res (A : Type) :=
  | Ok (a : A)
  | Err (err : gostring).
Arguments Ok {A} a.
Arguments Err {A} err.

Definition issue (st : Stmt) (d : DB) : DB :=
  {| simple_memories := simple_memories d;
     sqlite_sequence := sqlite_sequence d;
     issued := issued d ++ [st] |}.

Definition MAX_ROWID : Z := 9223372036854775807.

Definition max_rowid (t : gmap Z Row) : option Z :=
  map_fold (fun k _ acc =>
              match acc with
              | None => Some k
              | Some m => Some (Z.max k m)
              end) None t.

(** AUTOINCREMENT: one more than the largest id in the table and than the
    largest id ever handed out. *)
Definition new_rowid (d : DB) : Z :=
  Z.max (match max_rowid (simple_memories d) with
         | None => 1
         | Some m => m + 1
         end)
        (sqlite_sequence d + 1).

(** [INSERT INTO simple_memories (title, tags, status, content)
     VALUES (?, ?, ?, ?)] *)
Definition exec_insert (e : Env) (title tags status content : gostring)
    (d : DB) : res Z * DB :=
  let d := issue (InsertMemory title tags status content) d in
  match exec_err e with
  | Some err => (Err err, d)
  | None =>
      let id := new_rowid d in
      if (MAX_ROWID <? id)%Z then (Err (go "database or disk is full"), d)
      else
        (Ok id,
         {| simple_memories :=
              <[id := {| row_title := Some title;
                         row_tags := Some tags;
                         row_status := Some status;
                         row_content := content;
                         row_created_at := now e |}]> (simple_memories d);
            sqlite_sequence := id;
            issued := issued d |})
  end.

(** [WHERE title LIKE ? OR tags LIKE ? OR status LIKE ? OR content LIKE ?],
    the four parameters bound to the same pattern. *)
Definition where_like (pat : gostring) (r : Row) : bool :=
  sql_true
    (sql_or
       (sql_or
          (sql_or (sql_like (row_title r) pat) (sql_like (row_tags r) pat))
          (sql_like (row_status r) pat))
       (sql_like (Some (row_content r)) pat)).

Definition id_le (a b : Z * Row) : Prop := (a.1 <= b.1)%Z.

Global Instance id_le_dec a b : Decision (id_le a b).
Proof. unfold id_le. apply _. Defined.

(** [ORDER BY id ASC] *)
Definition order_by_id (rows : list (Z * Row)) : list (Z * Row) :=
  merge_sort id_le rows.

Definition selected (pat : gostring) (kv : Z * Row) : Prop :=
  where_like pat kv.2 = true.

Global Instance selected_dec pat kv : Decision (selected pat kv).
Proof. unfold selected. apply _. Defined.

(** [SELECT ... FROM simple_memories ORDER BY id ASC] *)
Definition query_all (e : Env) (d : DB) : res (list (Z * Row)) * DB :=
  let d := issue SelectAll d in
  match exec_err e with
  | Some err => (Err err, d)
  | None => (Ok (order_by_id (map_to_list (simple_memories d))), d)
  end.

(** [SELECT ... FROM simple_memories WHERE ... ORDER BY id ASC] *)
Definition query_like (e : Env) (pat : gostring) (d : DB)
    : res (list (Z * Row)) * DB :=
  let d := issue (SelectLike pat) d in
  match exec_err e with
  | Some err => (Err err, d)
  | None =>
      (Ok (order_by_id (filter (selected pat) (map_to_list (simple_memories d)))),
       d)
  end.

(** [DELETE FROM simple_memories WHERE ...]; the result carries
    [RowsAffected]. *)
Definition exec_delete (e : Env) (pat : gostring) (d : DB) : res Z * DB :=
  let d := issue (DeleteLike pat) d in
  match exec_err e with
  | Some err => (Err err, d)
  | None =>
      let t := simple_memories d in
      (Ok (Z.of_nat (size (filter (selected pat) t))),
       {| simple_memories := filter (fun kv => ~ selected pat kv) t;
          sqlite_sequence := sqlite_sequence d;
          issued := issued d |})
  end.

(** ** Requests and results *)

(** A tool argument: a JSON string or any other JSON value. *)
Inductive Arg :=
  | ArgString (s : gostring)
  | ArgOther.

Record CallToolRequest := { Arguments : gmap string Arg }.

Inductive CallToolResult :=
  | NewToolResultText (text : gostring)
  | NewToolResultError (text : gostring).

Record SimpleMemoryServer := {
  db : DB;
  logger : list gostring;       (* lines written to the log file *)
  disableLogging : bool
}.

Definition set_db (s : SimpleMemoryServer) (d : DB) : SimpleMemoryServer :=
  {| db := d; logger := logger s; disableLogging := disableLogging s |}.

(** [sql.NullString] and its [Scan]. *)
Record NullString := { String_ : gostring; Valid : bool }.

Definition scan_null (v : option gostring) : NullString :=
  match v with
  | None => {| String_ := []; Valid := false |}
  | Some x => {| String_ := x; Valid := true |}
  end.

(** The variables a row is scanned into, and [rows.Scan]; a row of this
    table always scans. *)
Record scanned := {
  sc_id : Z;
  sc_title : NullString;
  sc_tags : NullString;
  sc_status : NullString;
  sc_content : gostring;
  sc_createdAt : gostring
}.

Definition Scan (kv : Z * Row) : res scanned :=
  Ok {| sc_id := kv.1;
        sc_title := scan_null (row_title kv.2);
        sc_tags := scan_null (row_tags kv.2);
        sc_status := scan_null (row_status kv.2);
        sc_content := row_content kv.2;
        sc_createdAt := row_created_at kv.2 |}.

(** ** The tool handlers *)

Section Handlers.

(** The verb [%q] ([strconv.Quote]) is taken as given. *)
Variable quote : gostring -> gostring.

Definition dq : gostring := [34].

(** [req.GetString(key, defaultValue)] *)
Definition GetString (req : CallToolRequest) (key : string)
    (defaultValue : gostring) : gostring :=
  match Arguments req !! key with
  | Some (ArgString str) => str
  | _ => defaultValue
  end.

(** [req.RequireString(key)] *)
Definition RequireString (req : CallToolRequest) (key : string) : res gostring :=
  match Arguments req !! key with
  | Some (ArgString str) => Ok str
  | Some ArgOther => Err (go "argument " ++ quote (go key) ++ go " is not a string")
  | None => Err (go "required argument " ++ quote (go key) ++ go " not found")
  end.

(** [s.logger.Printf(...)]: the line is lost when the sink refuses it. *)
Definition Printf (e : Env) (line : gostring) (s : SimpleMemoryServer)
    : SimpleMemoryServer :=
  if log_ok e then
    {| db := db s; logger := logger s ++ [line];
       disableLogging := disableLogging s |}
  else s.

(** The JSON line of one scanned row. *)
Definition mem_json (id : Z) (title tags status content createdAt : gostring)
    : gostring :=
  go "{" ++ dq ++ go "id" ++ dq ++ go ":" ++ fmt_d id
  ++ go "," ++ dq ++ go "title" ++ dq ++ go ":" ++ quote title
  ++ go "," ++ dq ++ go "tags" ++ dq ++ go ":" ++ quote tags
  ++ go "," ++ dq ++ go "status" ++ dq ++ go ":" ++ quote status
  ++ go "," ++ dq ++ go "content" ++ dq ++ go ":" ++ quote content
  ++ go "," ++ dq ++ go "created_at" ++ dq ++ go ":" ++ quote createdAt
  ++ go "}".

(** The [for rows.Next()] loop shared by List and Search. *)
Fixpoint scan_rows (rows : list (Z * Row)) (memories : list gostring)
    : list gostring :=
  match rows with
  | [] => memories
  | kv :: rest =>
      match Scan kv with
      | Ok sc =>
          if negb (is_empty (TrimSpace (sc_content sc))) then
            scan_rows rest
              (memories ++
               [mem_json (sc_id sc) (String_ (sc_title sc))
                  (String_ (sc_tags sc)) (String_ (sc_status sc))
                  (sc_content sc) (sc_createdAt sc)])
          else scan_rows rest memories
      | Err _ => scan_rows rest memories
      end
  end.

Definition SimpleMemoryAdd (s : SimpleMemoryServer) (e : Env)
    (req : CallToolRequest) : CallToolResult * SimpleMemoryServer :=
  let title := GetString req "title" [] in
  let tags := GetString req "tags" [] in
  let status := GetString req "status" [] in
  match RequireString req "memory" with
  | Err err => (NewToolResultError (go "invalid params: " ++ err), s)
  | Ok memory =>
      let content := TrimSpace memory in
      if is_empty content then
        (NewToolResultError (go "memory cannot be empty"), s)
      else
        let '(r, d) :=
          exec_insert e (TrimSpace title) (TrimSpace tags) (TrimSpace status)
            content (db s) in
        let s := set_db s d in
        match r with
        | Err err =>
            (NewToolResultError (go "failed to add memory: " ++ err), s)
        | Ok _ =>
            let s :=
              if negb (disableLogging s) then
                Printf e
                  (go "[INFO] Added simple-memory: title=" ++ quote title
                   ++ go " tags=" ++ quote tags
                   ++ go " status=" ++ quote status
                   ++ go " content=" ++ quote content) s
              else s in
            (NewToolResultText (go "Simple-memory added."), s)
        end
  end.

Definition SimpleMemoryList (s : SimpleMemoryServer) (e : Env)
    (_ : CallToolRequest) : CallToolResult * SimpleMemoryServer :=
  let '(r, d) := query_all e (db s) in
  let s := set_db s d in
  match r with
  | Err err =>
      (NewToolResultError (go "failed to read simple-memories: " ++ err), s)
  | Ok rows =>
      let memories := scan_rows rows [] in
      match rows_err e with
      | Some err =>
          (NewToolResultError (go "failed to read simple-memories: " ++ err), s)
      | None =>
          if (length memories =? 0)%nat then (NewToolResultText [], s)
          else (NewToolResultText (Join memories [10]), s)
      end
  end.

Definition SimpleMemorySearch (s : SimpleMemoryServer) (e : Env)
    (req : CallToolRequest) : CallToolResult * SimpleMemoryServer :=
  match RequireString req "query" with
  | Err err => (NewToolResultError (go "invalid params: " ++ err), s)
  | Ok queryParam =>
      let query := TrimSpace queryParam in
      if is_empty query then
        (NewToolResultError (go "query cannot be empty"), s)
      else
        let '(r, d) := query_like e (like_pattern query) (db s) in
        let s := set_db s d in
        match r with
        | Err err =>
            (NewToolResultError
               (go "failed to search simple-memories: " ++ err), s)
        | Ok rows =>
            let matches := scan_rows rows [] in
            match rows_err e with
            | Some err =>
                (NewToolResultError
                   (go "failed to search simple-memories: " ++ err), s)
            | None =>
                if (length matches =? 0)%nat then
                  (NewToolResultText (go "No matching simple-memories found."), s)
                else (NewToolResultText (Join matches [10]), s)
            end
        end
  end.

Definition SimpleMemoryDelete (s : SimpleMemoryServer) (e : Env)
    (req : CallToolRequest) : CallToolResult * SimpleMemoryServer :=
  match RequireString req "query" with
  | Err err => (NewToolResultError (go "invalid params: " ++ err), s)
  | Ok queryParam =>
      let query := TrimSpace queryParam in
      if is_empty query then
        (NewToolResultError (go "query cannot be empty"), s)
      else
        let '(r, d) := exec_delete e (like_pattern query) (db s) in
        let s := set_db s d in
        match r with
        | Err err =>
            (NewToolResultError
               (go "failed to delete simple-memories: " ++ err), s)
        | Ok n =>
            let s :=
              if negb (disableLogging s) then
                Printf e
                  (go "[INFO] Deleted " ++ fmt_d n
                   ++ go " simple-memories matching " ++ quote query
                   ++ go " in any field") s
              else s in
            if (n =? 0)%Z then
              (NewToolResultText (go "No simple-memories deleted (no match)."), s)
            else
              (NewToolResultText
                 (go "Deleted " ++ fmt_d n ++ go " simple-memories."), s)
        end
  end.

End Handlers.

(** ** Records as the caller is shown them *)

(** A nullable column as it is surfaced. *)
Definition surface (v : option gostring) : gostring :=
  match v with
  | None => []
  | Some x => x
  end.

(** The JSON line of a record, NULL columns surfaced by [surface]. *)
Definition record_json (quote : gostring -> gostring) (kv : Z * Row) : gostring :=
  mem_json quote kv.1 (surface (row_title kv.2)) (surface (row_tags kv.2))
    (surface (row_status kv.2)) (row_content kv.2) (row_created_at kv.2).

(** A row whose content is not blank. *)
Definition nonblank (r : Row) : Prop :=
  forallb IsSpace (row_content r) = false.

Global Instance nonblank_dec r : Decision (nonblank r).
Proof. unfold nonblank. apply _. Defined.

Definition kept (kv : Z * Row) : Prop := nonblank kv.2.

Global Instance kept_dec kv : Decision (kept kv).
Proof. unfold kept. apply _. Defined.

(** The records List returns, in the order it returns them. *)
Definition list_rows (d : DB) : list (Z * Row) :=
  filter kept (order_by_id (map_to_list (simple_memories d))).

(** The records Search returns for a trimmed query. *)
Definition search_rows (d : DB) (query : gostring) : list (Z * Row) :=
  filter kept
    (order_by_id
       (filter (selected (like_pattern query)) (map_to_list (simple_memories d)))).

(** Whether any of the four fields of a record contains the query, for a
    given notion [has] of containment; a NULL field contains nothing. *)
Definition field_has (has : gostring -> gostring -> bool)
    (v : option gostring) (q : gostring) : bool :=
  match v with
  | None => false
  | Some x => has x q
  end.

Definition record_has (has : gostring -> gostring -> bool)
    (r : Row) (q : gostring) : bool :=
  field_has has (row_title r) q || field_has has (row_tags r) q
  || field_has has (row_status r) q || has (row_content r) q.

(** Containment with ASCII case folded, in the text before the first NUL. *)
Definition like_contains (x q : gostring) : bool := fold_contains (c_str x) q.

(** No white space at either end. *)
Definition starts_with_space (x : gostring) : bool :=
  match x with
  | [] => false
  | c :: _ => IsSpace c
  end.

Definition ends_with_space (x : gostring) : bool :=
  starts_with_space (List.rev x).

Definition trimmed (x : gostring) : Prop :=
  starts_with_space x = false /\ ends_with_space x = false.

(** The text Delete answers with for a given count. *)
Definition deleted_text (n : Z) : gostring :=
  if (n =? 0)%Z then go "No simple-memories deleted (no match)."
  else go "Deleted " ++ fmt_d n ++ go " simple-memories.".

(** The text Search answers with for given lines. *)
Definition search_text (matches : list gostring) : gostring :=
  if (length matches =? 0)%nat then go "No matching simple-memories found."
  else Join matches [10].

(** ** Sample data for running the handlers *)

(** [strconv.Quote] on strings of printable ASCII characters. *)
Definition quote_printable (x : gostring) : gostring :=
  dq ++ flat_map (fun c => if (c =? 34) || (c =? 92) then [92; c] else [c]) x
  ++ dq.

Definition env_ok : Env :=
  {| now := go "2024-05-01T10:00:00.000Z";
     exec_err := None; rows_err := None; log_ok := true |}.

Definition with_arg (key value : string) : CallToolRequest :=
  {| Arguments := {[ key := ArgString (go value) ]} |}.

Definition with_args (l : list (string * string)) : CallToolRequest :=
  {| Arguments := list_to_map ((fun kv => (kv.1, ArgString (go kv.2))) <$> l) |}.

Definition sample_row (title : option gostring) (content : string) : Row :=
  {| row_title := title; row_tags := None; row_status := None;
     row_content := go content;
     row_created_at := go "2024-04-30T09:00:00.000Z" |}.

Definition server_of (t : gmap Z Row) (seq : Z) : SimpleMemoryServer :=
  {| db := {| simple_memories := t; sqlite_sequence := seq; issued := [] |};
     logger := []; disableLogging := false |}.

(** The same server with logging disabled. *)
Definition quiet (s : SimpleMemoryServer) : SimpleMemoryServer :=
  {| db := db s; logger := logger s; disableLogging := true |}.


(** A record whose content is a single blank, next to a sound one. *)
Definition server_blank : SimpleMemoryServer :=
  server_of (<[ 7%Z := sample_row (Some (go "draft")) " " ]>
               {[ 3%Z := sample_row None "keep C" ]}) 7.

(** Three records with ids out of trie order, one with NULL columns. *)
Definition server_three : SimpleMemoryServer :=
  server_of (<[ 5%Z := sample_row (Some (go "Go")) "temp A" ]>
               (<[ 2%Z := sample_row None "temp B" ]>
                  {[ 9%Z := sample_row (Some (go "notes")) "keep C" ]})) 9.

(** ** Runs of the server

    [main] registers the four handlers under their tool names.  Each
    handler sends one statement to the store, so what concurrent callers
    do to the store is what some sequence of calls does. *)

Record Call := {
  tool_name : string;
  call_env : Env;
  call_req : CallToolRequest
}.

(** The handler registered under a tool name, if any. *)
Definition registered (quote : gostring -> gostring) (name : string)
    : option (SimpleMemoryServer -> Env -> CallToolRequest ->
              CallToolResult * SimpleMemoryServer) :=
  if String.eqb name "simple_memory_add" then Some (SimpleMemoryAdd quote)
  else if String.eqb name "simple_memory_list" then Some (SimpleMemoryList quote)
  else if String.eqb name "simple_memory_search" then
    Some (SimpleMemorySearch quote)
  else if String.eqb name "simple_memory_delete" then
    Some (SimpleMemoryDelete quote)
  else None.

(** The server after one call; a name that is not registered reaches no
    handler. *)
Definition after_call (quote : gostring -> gostring) (s : SimpleMemoryServer)
    (c : Call) : SimpleMemoryServer :=
  match registered quote (tool_name c) with
  | Some handler => (handler s (call_env c) (call_req c)).2
  | None => s
  end.

Definition after_calls (quote : gostring -> gostring) (s : SimpleMemoryServer)
    (cs : list Call) : SimpleMemoryServer :=
  fold_left (after_call quote) cs s.

(** Every id of the table is at most the largest id handed out. *)
Definition ids_bounded (d : DB) : Prop :=
  map_Forall (fun id _ => (id <= sqlite_sequence d)%Z) (simple_memories d).

Global Instance ids_bounded_dec d : Decision (ids_bounded d).
Proof. unfold ids_bounded. apply _. Defined.

(** A string made of white space only (the empty string included). *)
Definition blank (x : gostring) : bool := forallb IsSpace x.

(** A query made of [%] only. *)
Definition all_matchAll (q : gostring) : bool := forallb (fun c => c =? matchAll) q.

(** The argument under a key when it is a JSON string. *)
Definition string_arg (req : CallToolRequest) (key : string) : option gostring :=
  match Arguments req !! key with
  | Some (ArgString x) => Some x
  | _ => None
  end.

(** How a store may differ from an earlier one: the id counter has not
    gone back, and a record found under an id the earlier counter had
    reached was there before, with the same fields. *)
Definition grown_from (d d' : DB) : Prop :=
  (sqlite_sequence d <= sqlite_sequence d')%Z
  /\ forall id r,
       simple_memories d' !! id = Some r -> (id <= sqlite_sequence d)%Z ->
       simple_memories d !! id = Some r.

(** [y] is [x] with white space taken off its two ends and nothing else. *)
Definition trimming_of (x y : gostring) : Prop :=
  exists pre post,
    x = pre ++ y ++ post /\ blank pre = true /\ blank post = true /\ trimmed y.


(** ** Start-up: the schema and its additive migration

    The database file is seen as the columns of [simple_memories], in the
    order of their declaration, when the table exists, and the rows.  A row
    reads NULL in a column added after it was written, which is what
    [None] in its field says already. *)

Record Disk := {
  disk_columns : option (list string);
  disk_db : DB
}.

(** The statements start-up sends. *)
Inductive Ddl :=
  | JournalWAL
  | CreateTable
  | TableInfo
  | AddColumn (col : string).

(** The columns of the CREATE TABLE statement. *)
Definition schema_columns : list string :=
  ["id"; "title"; "tags"; "status"; "content"; "created_at"]%string.

(** The keys of the [columns] map of start-up. *)
Definition optional_columns : list string := ["title"; "tags"; "status"]%string.

(** What start-up finds around it: the environment variables, the order
    in which [range] visits the keys of the map, and what fails: opening
    the file, the CREATE TABLE statement, and for a column the PRAGMA
    query, the reading of its rows (after so many rows) or the ALTER
    TABLE statement. *)
Record StartEnv := {
  getenv : string -> gostring;
  map_order : list string;
  open_err : option gostring;
  create_err : option gostring;
  table_info_err : string -> option gostring;
  table_info_rows_err : string -> option (nat * gostring);
  add_column_err : string -> bool
}.

(** [CREATE TABLE IF NOT EXISTS simple_memories (...)] *)
Definition create_table (k : Disk) : Disk :=
  match disk_columns k with
  | Some _ => k
  | None =>
      {| disk_columns := Some schema_columns;
         disk_db := {| simple_memories := ∅; sqlite_sequence := 0;
                       issued := issued (disk_db k) |} |}
  end.

(** The names [PRAGMA table_info(simple_memories)] lists. *)
Definition table_info (k : Disk) : list string :=
  match disk_columns k with
  | Some cols => cols
  | None => []
  end.

(** [ALTER TABLE simple_memories ADD COLUMN col TEXT]: refused when the
    column exists already. *)
Definition add_column (ie : StartEnv) (col : string) (k : Disk) : Disk :=
  match disk_columns k with
  | None => k
  | Some cols =>
      if existsb (String.eqb col) cols || add_column_err ie col then k
      else {| disk_columns := Some (cols ++ [col]); disk_db := disk_db k |}
  end.

(** The inner loop over the rows of the PRAGMA: whether [col] is among
    the names read; an error of the reading shows when the loop was not
    left before. *)
Definition column_found (ie : StartEnv) (col : string) (k : Disk) : res bool :=
  match table_info_err ie col with
  | Some _ => Ok false
  | None =>
      match table_info_rows_err ie col with
      | Some (n, err) =>
          if existsb (String.eqb col) (take n (table_info k)) then Ok true
          else Err (go "failed to check columns: " ++ err)
      | None => Ok (existsb (String.eqb col) (table_info k))
      end
  end.

(** The loop [for col, stmt := range columns]. *)
Fixpoint migrate (ie : StartEnv) (order : list string) (k : Disk)
    (sent : list Ddl) : option gostring * Disk * list Ddl :=
  match order with
  | [] => (None, k, sent)
  | col :: rest =>
      let sent := sent ++ [TableInfo] in
      match column_found ie col k with
      | Err err => (Some err, k, sent)
      | Ok true => migrate ie rest k sent
      | Ok false => migrate ie rest (add_column ie col k) (sent ++ [AddColumn col])
      end
  end.

Section Startup.

(** [strings.ToLower] is taken as given. *)
Variable ToLower : gostring -> gostring.

Definition NewSimpleMemoryServer (ie : StartEnv) (k : Disk)
    : res SimpleMemoryServer * Disk * list Ddl :=
  let disable :=
    bool_decide (ToLower (getenv ie "DISABLE_SIMPLE_MEMORY_LOGGING") = go "true") in
  match open_err ie with
  | Some err => (Err (go "failed to open sqlite3 db: " ++ err), k, [])
  | None =>
      let sent := [JournalWAL; CreateTable] in
      match create_err ie with
      | Some err => (Err (go "failed to create schema: " ++ err), k, sent)
      | None =>
          let '(r, k, sent) := migrate ie (map_order ie) (create_table k) sent in
          match r with
          | Some err => (Err err, k, sent)
          | None =>
              (Ok {| db := disk_db k; logger := []; disableLogging := disable |},
               k, sent)
          end
      end
  end.

End Startup.

(** Nothing fails at start-up. *)
Definition no_faults (ie : StartEnv) : bool :=
  bool_decide (open_err ie = None) && bool_decide (create_err ie = None)
  && forallb (fun col =>
                bool_decide (table_info_err ie col = None)
                && bool_decide (table_info_rows_err ie col = None)
                && negb (add_column_err ie col)) optional_columns.

(** The ALTER TABLE statements among the statements sent. *)
Definition columns_added (sent : list Ddl) : list string :=
  omap (fun st => match st with AddColumn col => Some col | _ => None end) sent.

(** A start-up environment in which nothing fails. *)
Definition start_ok (order : list string) : StartEnv :=
  {| getenv := fun _ => [];
     map_order := order;
     open_err := None; create_err := None;
     table_info_err := fun _ => None;
     table_info_rows_err := fun _ => None;
     add_column_err := fun _ => false |}.

(** A file without the table, and a file written by the variant of the
    server that knows the content column only. *)
Definition disk_new : Disk :=
  {| disk_columns := None;
     disk_db := {| simple_memories := ∅; sqlite_sequence := 0; issued := [] |} |}.

Definition disk_content_only : Disk :=
  {| disk_columns := Some ["id"; "content"; "created_at"]%string;
     disk_db := db (server_of {[ 1%Z := sample_row None "old note" ]} 1) |}.

(** ** The content-only variant of the server ([main.go])

    The variant that knows the content column only works on the same
    table: what it inserts reads NULL in title, tags and status. *)

Module ContentOnly.

Inductive Stmt :=
  | InsertContent (content : gostring)
  | SelectContent
  | SelectContentLike (pat : gostring)
  | DeleteContentLike (pat : gostring).

Record Store := {
  rows : gmap Z Row;
  sequence : Z;
  sent : list Stmt
}.

Record Server := {
  store : Store;
  log_lines : list gostring;
  logging_disabled : bool
}.

Definition send (st : Stmt) (d : Store) : Store :=
  {| rows := rows d; sequence := sequence d; sent := sent d ++ [st] |}.

Definition set_store (s : Server) (d : Store) : Server :=
  {| store := d; log_lines := log_lines s;
     logging_disabled := logging_disabled s |}.

(** The table and the id counter as the other variant sees them. *)
Definition as_db (d : Store) : DB :=
  {| simple_memories := rows d; sqlite_sequence := sequence d; issued := [] |}.

(** The id AUTOINCREMENT picks, as for the other variant. *)
Definition next_rowid (d : Store) : Z := new_rowid (as_db d).

(** [INSERT INTO simple_memories (content) VALUES (?)] *)
Definition exec_insert (e : Env) (content : gostring) (d : Store)
    : res Z * Store :=
  let d := send (InsertContent content) d in
  match exec_err e with
  | Some err => (Err err, d)
  | None =>
      let id := next_rowid d in
      if (MAX_ROWID <? id)%Z then (Err (go "database or disk is full"), d)
      else
        (Ok id,
         {| rows := <[id := {| row_title := None; row_tags := None;
                               row_status := None; row_content := content;
                               row_created_at := now e |}]> (rows d);
            sequence := id;
            sent := sent d |})
  end.

(** [WHERE content LIKE ?] *)
Definition where_content (pat : gostring) (r : Row) : bool :=
  sql_true (sql_like (Some (row_content r)) pat).

Definition content_selected (pat : gostring) (kv : Z * Row) : Prop :=
  where_content pat kv.2 = true.

Global Instance content_selected_dec pat kv : Decision (content_selected pat kv).
Proof. unfold content_selected. apply _. Defined.

(** [SELECT content FROM simple_memories ORDER BY id ASC] *)
Definition query_all (e : Env) (d : Store) : res (list gostring) * Store :=
  let d := send SelectContent d in
  match exec_err e with
  | Some err => (Err err, d)
  | None =>
      (Ok ((fun kv => row_content kv.2) <$> order_by_id (map_to_list (rows d))), d)
  end.

(** [SELECT content FROM simple_memories WHERE content LIKE ?
     ORDER BY id ASC] *)
Definition query_like (e : Env) (pat : gostring) (d : Store)
    : res (list gostring) * Store :=
  let d := send (SelectContentLike pat) d in
  match exec_err e with
  | Some err => (Err err, d)
  | None =>
      (Ok ((fun kv => row_content kv.2)
             <$> order_by_id
                   (filter (content_selected pat) (map_to_list (rows d)))), d)
  end.

(** [DELETE FROM simple_memories WHERE content LIKE ?] *)
Definition exec_delete (e : Env) (pat : gostring) (d : Store) : res Z * Store :=
  let d := send (DeleteContentLike pat) d in
  match exec_err e with
  | Some err => (Err err, d)
  | None =>
      (Ok (Z.of_nat (size (filter (content_selected pat) (rows d)))),
       {| rows := filter (fun kv => ~ content_selected pat kv) (rows d);
          sequence := sequence d;
          sent := sent d |})
  end.

(** The [for rows.Next()] loop of List and Search. *)
Fixpoint scan_contents (contents : list gostring) (memories : list gostring)
    : list gostring :=
  match contents with
  | [] => memories
  | content :: rest =>
      if negb (is_empty (TrimSpace content)) then
        scan_contents rest (memories ++ [content])
      else scan_contents rest memories
  end.

Section Handlers.

Variable quote : gostring -> gostring.

Definition Printf (e : Env) (line : gostring) (s : Server) : Server :=
  if log_ok e then
    {| store := store s; log_lines := log_lines s ++ [line];
       logging_disabled := logging_disabled s |}
  else s.

Definition SimpleMemoryAdd (s : Server) (e : Env) (req : CallToolRequest)
    : CallToolResult * Server :=
  match RequireString quote req "memory" with
  | Err err => (NewToolResultError (go "invalid params: " ++ err), s)
  | Ok memory =>
      let content := TrimSpace memory in
      if is_empty content then
        (NewToolResultError (go "memory cannot be empty"), s)
      else
        let '(r, d) := exec_insert e content (store s) in
        let s := set_store s d in
        match r with
        | Err err =>
            (NewToolResultError (go "failed to add memory: " ++ err), s)
        | Ok _ =>
            let s :=
              if negb (logging_disabled s) then
                Printf e (go "[INFO] Added simple-memory: " ++ quote content) s
              else s in
            (NewToolResultText (go "Simple-memory added."), s)
        end
  end.

Definition SimpleMemoryList (s : Server) (e : Env) (_ : CallToolRequest)
    : CallToolResult * Server :=
  let '(r, d) := query_all e (store s) in
  let s := set_store s d in
  match r with
  | Err err =>
      (NewToolResultError (go "failed to read simple-memories: " ++ err), s)
  | Ok contents =>
      let memories := scan_contents contents [] in
      match rows_err e with
      | Some err =>
          (NewToolResultError (go "failed to read simple-memories: " ++ err), s)
      | None =>
          if (length memories =? 0)%nat then (NewToolResultText [], s)
          else (NewToolResultText (Join memories [10]), s)
      end
  end.

Definition SimpleMemorySearch (s : Server) (e : Env) (req : CallToolRequest)
    : CallToolResult * Server :=
  match RequireString quote req "query" with
  | Err err => (NewToolResultError (go "invalid params: " ++ err), s)
  | Ok queryParam =>
      let query := TrimSpace queryParam in
      if is_empty query then
        (NewToolResultError (go "query cannot be empty"), s)
      else
        let '(r, d) := query_like e (like_pattern query) (store s) in
        let s := set_store s d in
        match r with
        | Err err =>
            (NewToolResultError
               (go "failed to search simple-memories: " ++ err), s)
        | Ok contents =>
            let matches := scan_contents contents [] in
            match rows_err e with
            | Some err =>
                (NewToolResultError
                   (go "failed to search simple-memories: " ++ err), s)
            | None =>
                if (length matches =? 0)%nat then
                  (NewToolResultText (go "No matching simple-memories found."), s)
                else (NewToolResultText (Join matches [10]), s)
            end
        end
  end.

Definition SimpleMemoryDelete (s : Server) (e : Env) (req : CallToolRequest)
    : CallToolResult * Server :=
  match RequireString quote req "query" with
  | Err err => (NewToolResultError (go "invalid params: " ++ err), s)
  | Ok queryParam =>
      let query := TrimSpace queryParam in
      if is_empty query then
        (NewToolResultError (go "query cannot be empty"), s)
      else
        let '(r, d) := exec_delete e (like_pattern query) (store s) in
        let s := set_store s d in
        match r with
        | Err err =>
            (NewToolResultError
               (go "failed to delete simple-memories: " ++ err), s)
        | Ok n =>
            let s :=
              if negb (logging_disabled s) then
                Printf e
                  (go "[INFO] Deleted " ++ fmt_d n
                   ++ go " simple-memories containing " ++ quote query) s
              else s in
            if (n =? 0)%Z then
              (NewToolResultText (go "No simple-memories deleted (no match)."), s)
            else
              (NewToolResultText
                 (go "Deleted " ++ fmt_d n ++ go " simple-memories."), s)
        end
  end.

End Handlers.

(** A server of this variant on a given table. *)
Definition server_on (t : gmap Z Row) (seq : Z) : Server :=
  {| store := {| rows := t; sequence := seq; sent := [] |};
     log_lines := []; logging_disabled := false |}.

End ContentOnly.

(** A row as the content-only variant writes it. *)
Definition content_only_row (r : Row) : bool :=
  match row_title r, row_tags r, row_status r with
  | None, None, None => true
  | _, _, _ => false
  end.

(** ** More sample data *)

Definition req_add : CallToolRequest :=
  with_args [("memory", "  keep  D "); ("title", " T ")].

Definition req_temp : CallToolRequest := with_arg "query" "temp".

Definition req_TEMP : CallToolRequest := with_arg "query" " TEMP".

Definition req_percent : CallToolRequest := with_arg "query" "%%".


(** A run: an Add, a Delete, a call to a tool that does not exist, an
    Add, a List. *)
Definition some_calls : list Call :=
  [ {| tool_name := "simple_memory_add"; call_env := env_ok; call_req := req_add |};
    {| tool_name := "simple_memory_delete"; call_env := env_ok; call_req := req_temp |};
    {| tool_name := "simple_memory_update"; call_env := env_ok; call_req := req_add |};
    {| tool_name := "simple_memory_add"; call_env := env_ok; call_req := req_add |};
    {| tool_name := "simple_memory_list"; call_env := env_ok; call_req := req_add |} ].

(** A start-up in which every PRAGMA query and every ALTER TABLE fails. *)
Definition start_degraded : StartEnv :=
  {| getenv := fun _ => go "TRUE";
     map_order := ["status"; "title"; "tags"]%string;
     open_err := None; create_err := None;
     table_info_err := fun _ => Some (go "database is locked");
     table_info_rows_err := fun _ => None;
     add_column_err := fun _ => true |}.

(** A server of the content-only variant on the table of [server_three]. *)
Definition content_only_three : ContentOnly.Server :=
  ContentOnly.server_on (simple_memories (db server_three)) 9.

(** The two variants on a table written by the content-only one. *)
Definition old_table : gmap Z Row :=
  <[ 4%Z := sample_row None "temp B" ]> {[ 1%Z := sample_row None "old note" ]}.

(** ** Lemmas on trimming *)

Lemma TrimLeftFunc_nil_iff f s :
  TrimLeftFunc f s = [] <-> forallb f s = true.
Proof.
  induction s as [|c s IH]; simpl; [tauto|].
  destruct (f c); simpl; [exact IH|].
  split; discriminate.
Qed.

Lemma TrimRightFunc_nil_iff f s :
  TrimRightFunc f s = [] <-> forallb f s = true.
Proof.
  induction s as [|c s IH]; simpl; [tauto|].
  destruct (TrimRightFunc f s) as [|d t] eqn:E.
  - destruct (f c); simpl.
    + split; [intros _; apply IH; reflexivity | reflexivity].
    + split; discriminate.
  - split; [discriminate|].
    intros H. apply andb_prop in H as [_ H]. apply IH in H. discriminate.
Qed.

Lemma forallb_TrimLeftFunc f s :
  forallb f (TrimLeftFunc f s) = forallb f s.
Proof.
  induction s as [|c s IH]; simpl; [reflexivity|].
  destruct (f c) eqn:E; simpl; [exact IH|].
  rewrite E. reflexivity.
Qed.

(** Trimming yields the empty string exactly on blank strings. *)
Lemma TrimSpace_nil_iff s :
  TrimSpace s = [] <-> forallb IsSpace s = true.
Proof.
  unfold TrimSpace, TrimFunc.
  rewrite TrimRightFunc_nil_iff, forallb_TrimLeftFunc. tauto.
Qed.

Lemma TrimLeftFunc_head f s :
  match TrimLeftFunc f s with [] => True | c :: _ => f c = false end.
Proof.
  induction s as [|c s IH]; simpl; [exact I|].
  destruct (f c) eqn:E; [exact IH | exact E].
Qed.

Lemma TrimRightFunc_head f s c t :
  TrimRightFunc f s = c :: t -> exists s', s = c :: s'.
Proof.
  destruct s as [|d s]; simpl; [discriminate|].
  destruct (TrimRightFunc f s); [destruct (f d)|]; intros H;
    inversion H; subst; eauto.
Qed.

Lemma TrimRightFunc_last f s :
  match List.rev (TrimRightFunc f s) with [] => True | c :: _ => f c = false end.
Proof.
  induction s as [|c s IH]; simpl; [exact I|].
  destruct (TrimRightFunc f s) as [|d t] eqn:E.
  - destruct (f c) eqn:Ec; simpl; [exact I | exact Ec].
  - change (List.rev (c :: d :: t)) with (List.rev (d :: t) ++ [c]).
    destruct (List.rev (d :: t)) as [|e u] eqn:Er.
    + apply (f_equal (@List.length _)) in Er.
      rewrite length_rev in Er. discriminate.
    + simpl. exact IH.
Qed.

(** ** Lemmas on LIKE *)

Lemma like_char_eq_fold c d :
  like_char_eq c d = (sqlite3Tolower c =? sqlite3Tolower d).
Proof.
  unfold like_char_eq, sqlite3Tolower.
  destruct (65 <=? c) eqn:C1; destruct (c <=? 90) eqn:C2;
    destruct (65 <=? d) eqn:D1; destruct (d <=? 90) eqn:D2; simpl;
    destruct (c =? d) eqn:E; simpl;
    destruct (c <? 128) eqn:C3; destruct (d <? 128) eqn:D3; simpl;
    rewrite ?andb_true_r, ?andb_false_r;
    try reflexivity;
    repeat match goal with
           | H : (_ <=? _) = true |- _ => apply N.leb_le in H
           | H : (_ <=? _) = false |- _ => apply N.leb_gt in H
           | H : (_ <? _) = true |- _ => apply N.ltb_lt in H
           | H : (_ <? _) = false |- _ => apply N.ltb_ge in H
           | H : (_ =? _) = true |- _ => apply N.eqb_eq in H
           | H : (_ =? _) = false |- _ => apply N.eqb_neq in H
           end;
    try (symmetry; apply N.eqb_eq; lia);
    try (symmetry; apply N.eqb_neq; lia);
    try lia.
Qed.

(** One step of the [%] loop of [patternCompare]. *)
Lemma patternCompare_matchAll rest z :
  patternCompare (matchAll :: rest) z =
  patternCompare rest z
  || match z with
     | [] => false
     | _ :: z' => patternCompare (matchAll :: rest) z'
     end.
Proof. destruct z; reflexivity. Qed.


(** A trailing [%] accepts whatever is left of the text. *)
Lemma patternCompare_trailing_matchAll z :
  patternCompare [matchAll] z = true.
Proof.
  induction z as [|c z IH]; [reflexivity|].
  rewrite patternCompare_matchAll, IH. apply orb_true_r.
Qed.



Lemma c_str_plain q : plain q = true -> c_str q = q.
Proof.
  induction q as [|c q IH]; simpl; [reflexivity|].
  intros H. apply andb_prop in H as [Hc Hq].
  unfold plain_char in Hc. apply andb_prop in Hc as [_ Hc].
  apply negb_true_iff in Hc. rewrite Hc, (IH Hq). reflexivity.
Qed.



(** ** Lemmas on the store *)

Global Instance id_le_total : Total id_le.
Proof. intros a b. unfold id_le. lia. Qed.

Global Instance id_le_trans : Transitive id_le.
Proof. intros a b c. unfold id_le. lia. Qed.

Lemma order_by_id_perm rows : order_by_id rows ≡ₚ rows.
Proof. apply merge_sort_Permutation. Qed.

Lemma elem_of_order_by_id rows kv : kv ∈ order_by_id rows <-> kv ∈ rows.
Proof. by rewrite order_by_id_perm. Qed.

Lemma StronglySorted_filter {A} (R : relation A) (P : A -> Prop)
    `{!forall x, Decision (P x)} (l : list A) :
  StronglySorted R l -> StronglySorted R (filter P l).
Proof.
  induction 1 as [|x l Hl IH Hx]; [constructor|].
  rewrite filter_cons. destruct (decide (P x)); [|exact IH].
  constructor; [exact IH|].
  apply Forall_forall. intros y Hy.
  apply list_elem_of_filter in Hy as [_ Hy].
  rewrite Forall_forall in Hx. auto.
Qed.

(** Sorted by id with no id twice: the ids strictly ascend. *)
Lemma ids_ascending (l : list (Z * Row)) :
  StronglySorted id_le l -> NoDup (l.*1) -> StronglySorted Z.lt (l.*1).
Proof.
  induction 1 as [|x l Hl IH Hx]; intros Hnd; simpl; [constructor|].
  apply NoDup_cons in Hnd as [Hnotin Hnd].
  constructor; [auto|].
  apply Forall_fmap, Forall_forall. intros y Hy. simpl.
  rewrite Forall_forall in Hx. specialize (Hx y Hy). unfold id_le in Hx.
  assert (x.1 <> y.1).
  { intros E. apply Hnotin. rewrite E. apply list_elem_of_fmap_2, Hy. }
  lia.
Qed.

Lemma NoDup_ids_filter (P : Z * Row -> Prop) `{!forall x, Decision (P x)}
    (l : list (Z * Row)) :
  NoDup (l.*1) -> NoDup ((filter P l).*1).
Proof.
  intros Hnd. apply (sublist_NoDup _ _ Hnd).
  apply fmap_sublist, sublist_filter.
Qed.

Lemma NoDup_ids_order_by_id (l : list (Z * Row)) :
  NoDup (l.*1) -> NoDup ((order_by_id l).*1).
Proof. by rewrite order_by_id_perm. Qed.

(** What both SELECT statements hand to the loop, once the loop has
    dropped some rows, has strictly ascending ids. *)
Lemma select_ascending (P Q : Z * Row -> Prop)
    `{!forall x, Decision (P x)} `{!forall x, Decision (Q x)} (t : gmap Z Row) :
  StronglySorted Z.lt ((filter P (order_by_id (filter Q (map_to_list t)))).*1).
Proof.
  apply ids_ascending.
  - apply StronglySorted_filter, StronglySorted_merge_sort; apply _.
  - apply NoDup_ids_filter, NoDup_ids_order_by_id, NoDup_ids_filter,
      NoDup_fst_map_to_list.
Qed.

Lemma filter_all {A} (P : A -> Prop) `{!forall x, Decision (P x)} (l : list A) :
  Forall P l -> filter P l = l.
Proof.
  induction 1 as [|x l Hx Hl IH]; [reflexivity|].
  rewrite filter_cons_True by assumption. by rewrite IH.
Qed.

Lemma list_rows_alt (d : DB) :
  list_rows d =
  filter kept (order_by_id (filter (fun _ => True) (map_to_list (simple_memories d)))).
Proof.
  unfold list_rows. rewrite (filter_all (fun _ => True)); [reflexivity|].
  apply Forall_forall. auto.
Qed.

(** The rows a filter keeps of a table are as many as the table keeps
    under the same filter. *)
Lemma length_filter_map_to_list (P : Z * Row -> Prop)
    `{!forall x, Decision (P x)} (t : gmap Z Row) :
  length (filter P (map_to_list t)) = size (filter P t).
Proof.
  rewrite <- length_map_to_list, map_filter_alt.
  symmetry. apply Permutation_length, map_to_list_to_map.
  apply NoDup_ids_filter, NoDup_fst_map_to_list.
Qed.

Lemma elem_of_list_rows (d : DB) id r :
  (id, r) ∈ list_rows d <-> simple_memories d !! id = Some r /\ nonblank r.
Proof.
  unfold list_rows.
  rewrite list_elem_of_filter, elem_of_order_by_id, elem_of_map_to_list.
  unfold kept. simpl. tauto.
Qed.

Lemma elem_of_search_rows (d : DB) q id r :
  (id, r) ∈ search_rows d q <->
  simple_memories d !! id = Some r /\ nonblank r
  /\ where_like (like_pattern q) r = true.
Proof.
  unfold search_rows.
  rewrite list_elem_of_filter, elem_of_order_by_id, list_elem_of_filter,
    elem_of_map_to_list.
  unfold kept, selected. simpl. tauto.
Qed.

Lemma size_filter_complement (P : Z * Row -> Prop) `{!forall x, Decision (P x)}
    (t : gmap Z Row) :
  size t = (size (filter (fun kv => ~ P kv) t) + size (filter P t))%nat.
Proof.
  rewrite <- (map_filter_union_complement P t) at 1.
  rewrite map_size_disj_union by apply map_disjoint_filter_complement.
  lia.
Qed.

(** Every id in the table is below the id AUTOINCREMENT picks. *)
Lemma max_rowid_bound (t : gmap Z Row) id r :
  t !! id = Some r -> exists m, max_rowid t = Some m /\ (id <= m)%Z.
Proof.
  unfold max_rowid. revert id r.
  apply (map_fold_weak_ind
           (fun acc (t : gmap Z Row) =>
              forall id r, t !! id = Some r ->
                           exists m, acc = Some m /\ (id <= m)%Z)).
  - intros id r H. rewrite lookup_empty in H. discriminate.
  - intros k x t' acc Hk IH id r H.
    destruct (decide (k = id)) as [->|Hne].
    + destruct acc as [m|]; eexists; split; try reflexivity; lia.
    + rewrite lookup_insert_ne in H by assumption.
      destruct (IH _ _ H) as (m & -> & Hm).
      eexists; split; [reflexivity | lia].
Qed.

Lemma new_rowid_fresh (d : DB) : simple_memories d !! new_rowid d = None.
Proof.
  destruct (simple_memories d !! new_rowid d) as [r|] eqn:E; [|reflexivity].
  destruct (max_rowid_bound _ _ _ E) as (m & Hm & Hle).
  unfold new_rowid in Hle. rewrite Hm in Hle. lia.
Qed.

(** ** Lemmas on the WHERE clause *)

Lemma sql_true_or a b : sql_true (sql_or a b) = sql_true a || sql_true b.
Proof. destruct a as [[]|], b as [[]|]; reflexivity. Qed.

Lemma sql_true_or_eq a b :
  sql_or a b = Some (sql_true a || sql_true b) \/ sql_or a b = None.
Proof. destruct a as [[]|], b as [[]|]; simpl; auto. Qed.



(** ** Lemmas on the handlers *)

Lemma is_empty_TrimSpace x :
  is_empty (TrimSpace x) = forallb IsSpace x.
Proof.
  destruct (forallb IsSpace x) eqn:E.
  - apply TrimSpace_nil_iff in E. rewrite E. reflexivity.
  - destruct (TrimSpace x) eqn:T; [|reflexivity].
    apply TrimSpace_nil_iff in T. congruence.
Qed.

Lemma surface_scan_null v : String_ (scan_null v) = surface v.
Proof. destruct v; reflexivity. Qed.

Lemma Join_nil sep : Join [] sep = [].
Proof. reflexivity. Qed.

Section Properties.

Variable quote : gostring -> gostring.

(** The loop appends one line per row with non-blank content. *)
Lemma scan_rows_spec rows memories :
  scan_rows quote rows memories =
  memories ++ (record_json quote <$> filter kept rows).
Proof.
  revert memories. induction rows as [|kv rows IH]; intros memories.
  - simpl. by rewrite app_nil_r.
  - simpl scan_rows. rewrite is_empty_TrimSpace.
    destruct (decide (kept kv)) as [Hk|Hk].
    + rewrite (filter_cons_True _ _ _ Hk).
      unfold kept, nonblank in Hk. rewrite Hk. simpl negb. cbv iota.
      rewrite IH, fmap_cons, <- app_assoc. unfold record_json at 2.
      rewrite !surface_scan_null. reflexivity.
    + rewrite (filter_cons_False _ _ _ Hk).
      unfold kept, nonblank in Hk. apply not_false_is_true in Hk.
      rewrite Hk. simpl negb. cbv iota. apply IH.
Qed.

Lemma RequireString_string req key x :
  Arguments req !! key = Some (ArgString x) ->
  RequireString quote req key = Ok x.
Proof. unfold RequireString. by intros ->. Qed.

Lemma SimpleMemoryList_ok s e req :
  exec_err e = None -> rows_err e = None ->
  SimpleMemoryList quote s e req =
  (NewToolResultText (Join (record_json quote <$> list_rows (db s)) [10]),
   set_db s (issue SelectAll (db s))).
Proof.
  intros He Hr. unfold SimpleMemoryList, query_all. rewrite He, Hr.
  rewrite scan_rows_spec. simpl app. fold (list_rows (db s)).
  destruct (record_json quote <$> list_rows (db s)); reflexivity.
Qed.

Lemma SimpleMemorySearch_ok s e req queryParam :
  Arguments req !! "query" = Some (ArgString queryParam) ->
  is_empty (TrimSpace queryParam) = false ->
  exec_err e = None -> rows_err e = None ->
  SimpleMemorySearch quote s e req =
  (NewToolResultText
     (search_text (record_json quote <$> search_rows (db s) (TrimSpace queryParam))),
   set_db s (issue (SelectLike (like_pattern (TrimSpace queryParam))) (db s))).
Proof.
  intros Ha Hq He Hr. unfold SimpleMemorySearch, query_like.
  rewrite (RequireString_string _ _ _ Ha), Hq, He, Hr.
  rewrite scan_rows_spec. simpl app.
  fold (search_rows (db s) (TrimSpace queryParam)). unfold search_text.
  destruct (record_json quote <$> search_rows (db s) (TrimSpace queryParam));
    reflexivity.
Qed.

Lemma SimpleMemoryDelete_ok s e req queryParam :
  Arguments req !! "query" = Some (ArgString queryParam) ->
  is_empty (TrimSpace queryParam) = false ->
  exec_err e = None ->
  let pat := like_pattern (TrimSpace queryParam) in
  let t := simple_memories (db s) in
  (SimpleMemoryDelete quote s e req).1 =
    NewToolResultText (deleted_text (Z.of_nat (size (filter (selected pat) t))))
  /\ simple_memories (db (SimpleMemoryDelete quote s e req).2) =
     filter (fun kv => ~ selected pat kv) t.
Proof.
  intros Ha Hq He pat t. unfold SimpleMemoryDelete, exec_delete.
  rewrite (RequireString_string _ _ _ Ha), Hq, He.
  fold pat. simpl simple_memories. fold t. unfold deleted_text.
  destruct (Z.of_nat (size (filter (selected pat) t)) =? 0)%Z;
    destruct (disableLogging s); simpl; unfold Printf;
    destruct (log_ok e); simpl; auto.
Qed.

End Properties.

Lemma TrimSpace_trimmed x : trimmed (TrimSpace x).
Proof.
  unfold trimmed, TrimSpace, TrimFunc. split.
  - destruct (TrimRightFunc IsSpace (TrimLeftFunc IsSpace x)) as [|c t] eqn:E;
      [reflexivity|].
    apply TrimRightFunc_head in E as [s' E].
    pose proof (TrimLeftFunc_head IsSpace x) as H. rewrite E in H. exact H.
  - unfold ends_with_space, starts_with_space.
    pose proof (TrimRightFunc_last IsSpace (TrimLeftFunc IsSpace x)) as H.
    destruct (List.rev (TrimRightFunc IsSpace (TrimLeftFunc IsSpace x)));
      [reflexivity | exact H].
Qed.

(** Stores built by the handlers hold no record with blank content: Add
    and Delete keep that property of the table. *)
Lemma TrimSpace_nonblank x :
  is_empty (TrimSpace x) = false -> forallb IsSpace (TrimSpace x) = false.
Proof.
  intros H. destruct (TrimSpace_trimmed x) as [Hs _].
  destruct (TrimSpace x) as [|c t]; [discriminate|].
  simpl in *. by rewrite Hs.
Qed.

Lemma SimpleMemoryAdd_keeps_nonblank quote s e req :
  map_Forall (fun _ r => nonblank r) (simple_memories (db s)) ->
  map_Forall (fun _ r => nonblank r)
    (simple_memories (db (SimpleMemoryAdd quote s e req).2)).
Proof.
  intros Hs. unfold SimpleMemoryAdd, exec_insert.
  destruct (RequireString quote req "memory") as [memory|err]; [|exact Hs].
  destruct (is_empty (TrimSpace memory)) eqn:Hm; [exact Hs|].
  destruct (exec_err e); [exact Hs|].
  destruct (_ <? _)%Z; [exact Hs|].
  assert (Hins : map_Forall (fun _ r => nonblank r)
                   (<[new_rowid
                        (issue (InsertMemory (TrimSpace (GetString req "title" []))
                                  (TrimSpace (GetString req "tags" []))
                                  (TrimSpace (GetString req "status" []))
                                  (TrimSpace memory)) (db s))
                      := {| row_title := Some (TrimSpace (GetString req "title" []));
                            row_tags := Some (TrimSpace (GetString req "tags" []));
                            row_status := Some (TrimSpace (GetString req "status" []));
                            row_content := TrimSpace memory;
                            row_created_at := now e |}]>
                      (simple_memories (db s)))).
  { apply map_Forall_insert_2; [|exact Hs].
    unfold nonblank. simpl. apply TrimSpace_nonblank, Hm. }
  simpl. unfold Printf. destruct (disableLogging s), (log_ok e); exact Hins.
Qed.

Lemma SimpleMemoryDelete_keeps_nonblank quote s e req :
  map_Forall (fun _ r => nonblank r) (simple_memories (db s)) ->
  map_Forall (fun _ r => nonblank r)
    (simple_memories (db (SimpleMemoryDelete quote s e req).2)).
Proof.
  intros Hs. unfold SimpleMemoryDelete, exec_delete.
  destruct (RequireString quote req "query") as [queryParam|err]; [|exact Hs].
  destruct (is_empty (TrimSpace queryParam)); [exact Hs|].
  destruct (exec_err e); [exact Hs|].
  assert (Hf : map_Forall (fun _ r => nonblank r)
                 (filter (fun kv => ~ selected (like_pattern (TrimSpace queryParam)) kv)
                    (simple_memories (db s)))).
  { intros i x Hix. apply map_lookup_filter_Some in Hix as [Hix _].
    exact (Hs _ _ Hix). }
  destruct (_ =? 0)%Z; simpl; unfold Printf;
    destruct (disableLogging s), (log_ok e); exact Hf.
Qed.

(** ** The claims *)

Section Claims.

Context (quote : gostring -> gostring).

(** C3. An Add whose content is empty or made of white space only is
    answered with the error [memory cannot be empty] and leaves the server,
    hence the store, exactly as it was: no statement reaches the store and
    no row is persisted. *)
Theorem Add_blank_content_rejected s e req memory :
  Arguments req !! "memory" = Some (ArgString memory) ->
  forallb IsSpace memory = true ->
  SimpleMemoryAdd quote s e req =
  (NewToolResultError (go "memory cannot be empty"), s).
Proof.
  intros Ha Hb. unfold SimpleMemoryAdd.
  rewrite (RequireString_string _ _ _ _ Ha), is_empty_TrimSpace, Hb.
  reflexivity.
Qed.

(** C4. A query that is empty or made of white space only is answered by
    both Search and Delete with the error [query cannot be empty]; the
    server is returned as it was, so no statement was issued to the store
    and the table is unchanged. *)
Theorem blank_query_rejected s e req queryParam :
  Arguments req !! "query" = Some (ArgString queryParam) ->
  forallb IsSpace queryParam = true ->
  SimpleMemorySearch quote s e req =
    (NewToolResultError (go "query cannot be empty"), s)
  /\ SimpleMemoryDelete quote s e req =
    (NewToolResultError (go "query cannot be empty"), s).
Proof.
  intros Ha Hb. unfold SimpleMemorySearch, SimpleMemoryDelete.
  rewrite (RequireString_string _ _ _ _ Ha), is_empty_TrimSpace, Hb.
  split; reflexivity.
Qed.

(** C9. Add and Delete give the caller the same result and leave the same
    store whether logging is disabled or not (and whatever the log holds or
    the log sink does): two runs from servers with the same store, under the
    same clock and the same store behaviour, agree on the result and on the
    final store. *)
Theorem logging_does_not_alter_outcome s1 s2 e1 e2 req :
  db s1 = db s2 -> now e1 = now e2 -> exec_err e1 = exec_err e2 ->
  ((SimpleMemoryAdd quote s1 e1 req).1 = (SimpleMemoryAdd quote s2 e2 req).1
   /\ db (SimpleMemoryAdd quote s1 e1 req).2
      = db (SimpleMemoryAdd quote s2 e2 req).2)
  /\ ((SimpleMemoryDelete quote s1 e1 req).1
      = (SimpleMemoryDelete quote s2 e2 req).1
      /\ db (SimpleMemoryDelete quote s1 e1 req).2
         = db (SimpleMemoryDelete quote s2 e2 req).2).
Proof.
  intros Hd Hn He. split.
  - unfold SimpleMemoryAdd, exec_insert.
    destruct (RequireString quote req "memory") as [memory|err]; [|auto].
    destruct (is_empty (TrimSpace memory)); [auto|].
    rewrite Hd, Hn, He.
    destruct (exec_err e2); [auto|].
    destruct (_ <? _)%Z; [auto|].
    simpl. unfold Printf.
    destruct (disableLogging s1), (disableLogging s2), (log_ok e1), (log_ok e2);
      auto.
  - unfold SimpleMemoryDelete, exec_delete.
    destruct (RequireString quote req "query") as [queryParam|err]; [|auto].
    destruct (is_empty (TrimSpace queryParam)); [auto|].
    rewrite Hd, He.
    destruct (exec_err e2); [auto|].
    destruct (_ =? 0)%Z; simpl; unfold Printf;
      destruct (disableLogging s1), (disableLogging s2), (log_ok e1), (log_ok e2);
      auto.
Qed.

(** C10. A successful Add persists one new row whose title, tags, status
    and content are the trimmed arguments; none of the four has white
    space at its start or at its end. *)
Theorem Add_stores_trimmed_fields s e req :
  (SimpleMemoryAdd quote s e req).1 = NewToolResultText (go "Simple-memory added.") ->
  exists id memory r,
    Arguments req !! "memory" = Some (ArgString memory)
    /\ simple_memories (db s) !! id = None
    /\ simple_memories (db (SimpleMemoryAdd quote s e req).2)
       = <[id := r]> (simple_memories (db s))
    /\ row_title r = Some (TrimSpace (GetString req "title" []))
    /\ row_tags r = Some (TrimSpace (GetString req "tags" []))
    /\ row_status r = Some (TrimSpace (GetString req "status" []))
    /\ row_content r = TrimSpace memory
    /\ trimmed (surface (row_title r)) /\ trimmed (surface (row_tags r))
    /\ trimmed (surface (row_status r)) /\ trimmed (row_content r).
Proof.
  unfold SimpleMemoryAdd, RequireString, exec_insert.
  destruct (Arguments req !! "memory") as [[memory|]|] eqn:Ha;
    [|discriminate|discriminate].
  destruct (is_empty (TrimSpace memory)); [discriminate|].
  destruct (exec_err e); [discriminate|].
  destruct (_ <? _)%Z eqn:Hfull; [discriminate|].
  intros _.
  eexists _, memory, _. split; [reflexivity|].
  split; [|split].
  - apply (new_rowid_fresh
             (issue (InsertMemory (TrimSpace (GetString req "title" []))
                       (TrimSpace (GetString req "tags" []))
                       (TrimSpace (GetString req "status" []))
                       (TrimSpace memory)) (db s))).
  - simpl. unfold Printf.
    destruct (disableLogging s), (log_ok e); reflexivity.
  - simpl. repeat split; apply TrimSpace_trimmed.
Qed.




(** C8. List returns exactly the rows of the table whose content is not
    blank; every row Search returns has non-blank content; and a row whose
    content is empty or white space only is in neither result. *)
Theorem blank_content_excluded s e req queryParam :
  exec_err e = None -> rows_err e = None ->
  Arguments req !! "query" = Some (ArgString queryParam) ->
  is_empty (TrimSpace queryParam) = false ->
  (SimpleMemoryList quote s e req).1
  = NewToolResultText (Join (record_json quote <$> list_rows (db s)) [10])
  /\ (SimpleMemorySearch quote s e req).1
     = NewToolResultText
         (search_text
            (record_json quote <$> search_rows (db s) (TrimSpace queryParam)))
  /\ (forall id r,
        ((id, r) ∈ list_rows (db s)) <->
        (simple_memories (db s) !! id = Some r
         /\ is_empty (TrimSpace (row_content r)) = false))
  /\ (forall id r,
        (id, r) ∈ search_rows (db s) (TrimSpace queryParam) ->
        is_empty (TrimSpace (row_content r)) = false)
  /\ (forall id r,
        is_empty (TrimSpace (row_content r)) = true ->
        ((id, r) ∉ list_rows (db s))
        /\ ((id, r) ∉ search_rows (db s) (TrimSpace queryParam))).
Proof.
  intros He Hr Ha Hq. split; [|split; [|split; [|split]]].
  - by rewrite SimpleMemoryList_ok.
  - by rewrite (SimpleMemorySearch_ok _ _ _ _ _ Ha).
  - intros id r. rewrite elem_of_list_rows, is_empty_TrimSpace. reflexivity.
  - intros id r H. apply elem_of_search_rows in H as (_ & H & _).
    rewrite is_empty_TrimSpace. exact H.
  - intros id r H. rewrite is_empty_TrimSpace in H.
    split; intros H'.
    + apply elem_of_list_rows in H' as [_ H']. unfold nonblank in H'.
      congruence.
    + apply elem_of_search_rows in H' as (_ & H' & _). unfold nonblank in H'.
      congruence.
Qed.


(** C2, as amended. On a store none of whose records has blank content,
    the count Delete reports, which is the number of rows it removes, is
    the number of records Search returns for the same query on the same
    store. *)
Theorem Delete_count_is_Search_count s e req queryParam :
  map_Forall (fun _ r => nonblank r) (simple_memories (db s)) ->
  Arguments req !! "query" = Some (ArgString queryParam) ->
  is_empty (TrimSpace queryParam) = false ->
  exec_err e = None -> rows_err e = None ->
  let found := search_rows (db s) (TrimSpace queryParam) in
  (SimpleMemorySearch quote s e req).1
  = NewToolResultText (search_text (record_json quote <$> found))
  /\ (SimpleMemoryDelete quote s e req).1
     = NewToolResultText (deleted_text (Z.of_nat (length found)))
  /\ size (simple_memories (db s))
     = (size (simple_memories (db (SimpleMemoryDelete quote s e req).2))
        + length found)%nat.
Proof.
  intros Hnb Ha Hq He Hr found.
  destruct (SimpleMemoryDelete_ok quote s _ _ _ Ha Hq He) as [Hres Htab].
  assert (Hlen : length found
                 = size (filter (selected (like_pattern (TrimSpace queryParam)))
                           (simple_memories (db s)))).
  { unfold found, search_rows. rewrite filter_all.
    - rewrite order_by_id_perm. apply length_filter_map_to_list.
    - apply Forall_forall. intros [id r] Hin.
      apply elem_of_order_by_id, list_elem_of_filter in Hin as [_ Hin].
      apply elem_of_map_to_list in Hin. exact (Hnb _ _ Hin). }
  split; [|split].
  - by rewrite (SimpleMemorySearch_ok _ _ _ _ _ Ha).
  - by rewrite Hres, Hlen.
  - rewrite Htab, Hlen. apply size_filter_complement.
Qed.

End Claims.

(** ** The claims on sample data *)

Ltac by_evaluation := vm_compute; reflexivity.
Ltac by_decision :=
  match goal with
  | |- ?P => apply (@bool_decide_unpack P _); vm_compute; exact I
  end.

(** A memory of three blanks is rejected and nothing changes. *)
Lemma Add_blank_content_rejected_witness :
  SimpleMemoryAdd quote_printable server_three env_ok (with_arg "memory" "   ")
  = (NewToolResultError (go "memory cannot be empty"), server_three).
Proof.
  apply (Add_blank_content_rejected quote_printable server_three env_ok
           (with_arg "memory" "   ") (go "   ")).
  - by_evaluation.
  - by_evaluation.
Defined.

(** A query of two blanks is rejected by Search and by Delete. *)
Lemma blank_query_rejected_witness :
  SimpleMemorySearch quote_printable server_three env_ok (with_arg "query" "  ")
    = (NewToolResultError (go "query cannot be empty"), server_three)
  /\ SimpleMemoryDelete quote_printable server_three env_ok (with_arg "query" "  ")
    = (NewToolResultError (go "query cannot be empty"), server_three).
Proof.
  apply (blank_query_rejected quote_printable server_three env_ok
           (with_arg "query" "  ") (go "  ")).
  - by_evaluation.
  - by_evaluation.
Defined.

(** The same calls on a server that logs and on one that does not. *)
Lemma logging_does_not_alter_outcome_witness :
  ((SimpleMemoryAdd quote_printable server_three env_ok
      (with_args [("memory", "note"); ("query", "temp")])).1
   = (SimpleMemoryAdd quote_printable (quiet server_three) env_ok
        (with_args [("memory", "note"); ("query", "temp")])).1
   /\ db (SimpleMemoryAdd quote_printable server_three env_ok
            (with_args [("memory", "note"); ("query", "temp")])).2
      = db (SimpleMemoryAdd quote_printable (quiet server_three) env_ok
              (with_args [("memory", "note"); ("query", "temp")])).2)
  /\ ((SimpleMemoryDelete quote_printable server_three env_ok
         (with_args [("memory", "note"); ("query", "temp")])).1
      = (SimpleMemoryDelete quote_printable (quiet server_three) env_ok
           (with_args [("memory", "note"); ("query", "temp")])).1
      /\ db (SimpleMemoryDelete quote_printable server_three env_ok
               (with_args [("memory", "note"); ("query", "temp")])).2
         = db (SimpleMemoryDelete quote_printable (quiet server_three) env_ok
                 (with_args [("memory", "note"); ("query", "temp")])).2).
Proof.
  apply (logging_does_not_alter_outcome quote_printable server_three
           (quiet server_three) env_ok env_ok (with_args [("memory", "note"); ("query", "temp")])).
  - reflexivity.
  - reflexivity.
  - reflexivity.
Defined.

(** An Add with blanks around its memory and its title. *)
Lemma Add_stores_trimmed_fields_witness :
  exists id memory r,
    Arguments (with_args [("memory", "  keep D "); ("title", " T ")]) !! "memory"
    = Some (ArgString memory)
    /\ simple_memories (db server_three) !! id = None
    /\ simple_memories
         (db (SimpleMemoryAdd quote_printable server_three env_ok
                (with_args [("memory", "  keep D "); ("title", " T ")])).2)
       = <[id := r]> (simple_memories (db server_three))
    /\ row_title r
       = Some (TrimSpace
                 (GetString (with_args [("memory", "  keep D "); ("title", " T ")])
                    "title" []))
    /\ row_tags r
       = Some (TrimSpace
                 (GetString (with_args [("memory", "  keep D "); ("title", " T ")])
                    "tags" []))
    /\ row_status r
       = Some (TrimSpace
                 (GetString (with_args [("memory", "  keep D "); ("title", " T ")])
                    "status" []))
    /\ row_content r = TrimSpace memory
    /\ trimmed (surface (row_title r)) /\ trimmed (surface (row_tags r))
    /\ trimmed (surface (row_status r)) /\ trimmed (row_content r).
Proof.
  apply (Add_stores_trimmed_fields quote_printable server_three env_ok
           (with_args [("memory", "  keep D "); ("title", " T ")])).
  by_evaluation.
Defined.




(** List and Search on a table with a record of blank content. *)
Lemma blank_content_excluded_witness :
  (SimpleMemoryList quote_printable server_blank env_ok
     (with_arg "query" "draft")).1
  = NewToolResultText
      (Join (record_json quote_printable <$> list_rows (db server_blank)) [10])
  /\ (SimpleMemorySearch quote_printable server_blank env_ok
        (with_arg "query" "draft")).1
     = NewToolResultText
         (search_text
            (record_json quote_printable
               <$> search_rows (db server_blank) (TrimSpace (go "draft"))))
  /\ (forall id r,
        ((id, r) ∈ list_rows (db server_blank)) <->
        (simple_memories (db server_blank) !! id = Some r
         /\ is_empty (TrimSpace (row_content r)) = false))
  /\ (forall id r,
        (id, r) ∈ search_rows (db server_blank) (TrimSpace (go "draft")) ->
        is_empty (TrimSpace (row_content r)) = false)
  /\ (forall id r,
        is_empty (TrimSpace (row_content r)) = true ->
        ((id, r) ∉ list_rows (db server_blank))
        /\ ((id, r) ∉ search_rows (db server_blank) (TrimSpace (go "draft")))).
Proof.
  apply (blank_content_excluded quote_printable server_blank env_ok
           (with_arg "query" "draft") (go "draft")).
  - reflexivity.
  - reflexivity.
  - by_evaluation.
  - by_evaluation.
Defined.


(** Search and Delete of [temp] on three sound records. *)
Lemma Delete_count_is_Search_count_witness :
  (SimpleMemorySearch quote_printable server_three env_ok
     (with_arg "query" "temp")).1
  = NewToolResultText
      (search_text
         (record_json quote_printable
            <$> search_rows (db server_three) (TrimSpace (go "temp"))))
  /\ (SimpleMemoryDelete quote_printable server_three env_ok
        (with_arg "query" "temp")).1
     = NewToolResultText
         (deleted_text
            (Z.of_nat
               (length (search_rows (db server_three) (TrimSpace (go "temp"))))))
  /\ size (simple_memories (db server_three))
     = (size (simple_memories
                (db (SimpleMemoryDelete quote_printable server_three env_ok
                       (with_arg "query" "temp")).2))
        + length (search_rows (db server_three) (TrimSpace (go "temp"))))%nat.
Proof.
  apply (Delete_count_is_Search_count quote_printable server_three env_ok
           (with_arg "query" "temp") (go "temp")).
  - by_decision.
  - by_evaluation.
  - by_evaluation.
  - reflexivity.
  - reflexivity.
Defined.


(** C2 as stated fails on a store that holds a record with blank content:
    Search returns no record for [draft], Delete removes one. *)
Lemma Delete_count_counterexample :
  (SimpleMemorySearch quote_printable server_blank env_ok
     (with_arg "query" "draft")).1
  = NewToolResultText (go "No matching simple-memories found.")
  /\ length (search_rows (db server_blank) (TrimSpace (go "draft"))) = 0%nat
  /\ (SimpleMemoryDelete quote_printable server_blank env_ok
        (with_arg "query" "draft")).1
     = NewToolResultText (go "Deleted 1 simple-memories.")
  /\ size (simple_memories (db server_blank))
     = (size (simple_memories
                (db (SimpleMemoryDelete quote_printable server_blank env_ok
                       (with_arg "query" "draft")).2)) + 1)%nat.
Proof. repeat split; by_evaluation. Qed.

(** ** Further runs *)

(** A query made of [%] is not read as text: it selects every record. *)
Example Search_percent_selects_all :
  search_rows (db server_three) (go "%") = list_rows (db server_three)
  /\ record_has like_contains (sample_row None "temp B") (go "%") = false.
Proof. split; by_evaluation. Qed.

(** Operands of LIKE end at their first NUL: the pattern built from a
    query with a NUL inside is cut there. *)
Example likeFunc_reads_up_to_NUL :
  likeFunc (like_pattern [97; 0; 98]) (go "banana") = true
  /\ fold_contains (go "banana") [97; 0; 98] = false.
Proof. split; by_evaluation. Qed.

(** Scenario C of the specification: of [temp A], [temp B] and [keep C],
    Delete [temp] removes two and List then shows [keep C] alone. *)
Example Delete_temp_then_List :
  (SimpleMemoryDelete quote_printable server_three env_ok
     (with_arg "query" "temp")).1
  = NewToolResultText (go "Deleted 2 simple-memories.")
  /\ list_rows
       (db (SimpleMemoryDelete quote_printable server_three env_ok
              (with_arg "query" "temp")).2)
     = [(9%Z, sample_row (Some (go "notes")) "keep C")].
Proof. split; by_evaluation. Qed.

(** The ids List shows are in ascending order although the table holds
    them in another one. *)
Example List_three_ids :
  (list_rows (db server_three)).*1 = [2%Z; 5%Z; 9%Z]
  /\ (map_to_list (simple_memories (db server_three))).*1 <> [2%Z; 5%Z; 9%Z].
Proof. split; [by_evaluation | vm_compute; discriminate]. Qed.

(** ** Further lemmas on lists sorted by id *)

(** Two lists with strictly ascending ids and the same members are equal. *)
Lemma ascending_ids_unique (l1 l2 : list (Z * Row)) :
  StronglySorted Z.lt (l1.*1) -> StronglySorted Z.lt (l2.*1) ->
  (forall x, x ∈ l1 <-> x ∈ l2) -> l1 = l2.
Proof.
  revert l2. induction l1 as [|x1 l1 IH]; intros l2 H1 H2 Hm.
  - destruct l2 as [|x2 l2]; [reflexivity|].
    assert (Hx : x2 ∈ []) by (apply Hm; left). inversion Hx.
  - destruct l2 as [|x2 l2].
    { assert (Hx : x1 ∈ []) by (apply Hm; left). inversion Hx. }
    simpl in H1, H2.
    apply StronglySorted_inv in H1 as [H1 Hf1].
    apply StronglySorted_inv in H2 as [H2 Hf2].
    rewrite Forall_fmap, Forall_forall in Hf1, Hf2. simpl in Hf1, Hf2.
    assert (Hx : x1 = x2).
    { assert (A : x1 ∈ x2 :: l2) by (apply Hm; left).
      assert (B : x2 ∈ x1 :: l1) by (apply Hm; left).
      apply elem_of_cons in A as [A|A]; [exact A|].
      apply elem_of_cons in B as [B|B]; [by symmetry|].
      specialize (Hf1 _ B). specialize (Hf2 _ A). lia. }
    subst x2. f_equal. apply IH; [assumption..|].
    intros y. split; intros Hy.
    + assert (A : y ∈ x1 :: l2) by (apply Hm; by right).
      apply elem_of_cons in A as [->|A]; [|exact A].
      specialize (Hf1 _ Hy). lia.
    + assert (A : y ∈ x1 :: l1) by (apply Hm; by right).
      apply elem_of_cons in A as [->|A]; [|exact A].
      specialize (Hf2 _ Hy). lia.
Qed.

Lemma list_rows_ascending (d : DB) : StronglySorted Z.lt ((list_rows d).*1).
Proof. rewrite list_rows_alt. apply select_ascending. Qed.

Lemma search_rows_ascending (d : DB) q :
  StronglySorted Z.lt ((search_rows d q).*1).
Proof. apply select_ascending. Qed.

(** Search returns the records of List that satisfy the WHERE clause, in
    the order of List. *)
Lemma search_rows_filter_list_rows (d : DB) q :
  search_rows d q = filter (selected (like_pattern q)) (list_rows d).
Proof.
  apply ascending_ids_unique.
  - apply search_rows_ascending.
  - rewrite list_rows_alt, list_filter_filter. apply select_ascending.
  - intros [id r]. rewrite list_elem_of_filter, elem_of_search_rows,
      elem_of_list_rows. unfold selected. simpl. tauto.
Qed.

Lemma list_rows_insert_last (d d' : DB) id r :
  simple_memories d' = <[id := r]> (simple_memories d) ->
  (forall k x, simple_memories d !! k = Some x -> (k < id)%Z) ->
  nonblank r ->
  list_rows d' = list_rows d ++ [(id, r)].
Proof.
  intros Ht Hlt Hr. apply ascending_ids_unique.
  - apply list_rows_ascending.
  - rewrite fmap_app. apply StronglySorted_app_2.
    + intros k1 k2 H1 H2. apply list_elem_of_fmap in H1 as ([k x] & -> & H1).
      apply elem_of_list_rows in H1 as [H1 _].
      apply list_elem_of_singleton in H2 as ->. simpl. eauto.
    + apply list_rows_ascending.
    + repeat constructor.
  - intros [k x]. rewrite elem_of_app, list_elem_of_singleton,
      !elem_of_list_rows, Ht.
    destruct (decide (k = id)) as [->|Hne].
    + rewrite lookup_insert_eq. split.
      * intros [E _]. right. congruence.
      * intros [[E _]|E]; [apply Hlt in E; lia|].
        inversion E; subst. auto.
    + rewrite lookup_insert_ne by congruence. split; [tauto|].
      intros [H|E]; [tauto | congruence].
Qed.

Lemma new_rowid_above (d : DB) k x :
  simple_memories d !! k = Some x -> (k < new_rowid d)%Z.
Proof.
  intros H. destruct (max_rowid_bound _ _ _ H) as (m & Hm & Hle).
  unfold new_rowid. rewrite Hm. lia.
Qed.

Lemma new_rowid_above_sequence (d : DB) : (sqlite_sequence d < new_rowid d)%Z.
Proof. unfold new_rowid. lia. Qed.

Lemma new_rowid_issue st d : new_rowid (issue st d) = new_rowid d.
Proof. reflexivity. Qed.

Lemma string_arg_Some req key x :
  string_arg req key = Some x <-> Arguments req !! key = Some (ArgString x).
Proof.
  unfold string_arg. destruct (Arguments req !! key) as [[y|]|]; split;
    intros H; inversion H; reflexivity.
Qed.

Section MoreHandlerLemmas.

Context (quote : gostring -> gostring).

(** The row Add inserts. *)
Lemma SimpleMemoryAdd_success_inv s e req :
  (SimpleMemoryAdd quote s e req).1 = NewToolResultText (go "Simple-memory added.") ->
  exists memory,
    string_arg req "memory" = Some memory
    /\ is_empty (TrimSpace memory) = false
    /\ exec_err e = None
    /\ (new_rowid (db s) <= MAX_ROWID)%Z
    /\ simple_memories (db (SimpleMemoryAdd quote s e req).2)
       = <[new_rowid (db s) :=
             {| row_title := Some (TrimSpace (GetString req "title" []));
                row_tags := Some (TrimSpace (GetString req "tags" []));
                row_status := Some (TrimSpace (GetString req "status" []));
                row_content := TrimSpace memory;
                row_created_at := now e |}]> (simple_memories (db s))
    /\ sqlite_sequence (db (SimpleMemoryAdd quote s e req).2) = new_rowid (db s).
Proof.
  unfold SimpleMemoryAdd, RequireString, exec_insert, string_arg.
  destruct (Arguments req !! "memory") as [[memory|]|] eqn:Ha;
    [|discriminate|discriminate].
  destruct (is_empty (TrimSpace memory)) eqn:Hm; [discriminate|].
  destruct (exec_err e) eqn:He; [discriminate|].
  rewrite new_rowid_issue.
  destruct (_ <? _)%Z eqn:Hfull; [discriminate|].
  intros _. exists memory. apply Z.ltb_ge in Hfull.
  repeat split; try assumption;
    simpl; unfold Printf; destruct (disableLogging s), (log_ok e); reflexivity.
Qed.

(** What a call to Add can do to the store. *)
Lemma SimpleMemoryAdd_db_cases s e req :
  let d' := db (SimpleMemoryAdd quote s e req).2 in
  (simple_memories d' = simple_memories (db s)
   /\ sqlite_sequence d' = sqlite_sequence (db s))
  \/ (SimpleMemoryAdd quote s e req).1
     = NewToolResultText (go "Simple-memory added.").
Proof.
  unfold SimpleMemoryAdd, exec_insert.
  destruct (RequireString quote req "memory") as [memory|err]; [|auto].
  destruct (is_empty (TrimSpace memory)); [auto|].
  destruct (exec_err e); [auto|].
  destruct (_ <? _)%Z; [auto|].
  right. reflexivity.
Qed.

(** What a call to Delete can do to the store. *)
Lemma SimpleMemoryDelete_db_cases s e req :
  let d' := db (SimpleMemoryDelete quote s e req).2 in
  sqlite_sequence d' = sqlite_sequence (db s)
  /\ (simple_memories d' = simple_memories (db s)
      \/ exists pat,
           simple_memories d'
           = filter (fun kv => ~ selected pat kv) (simple_memories (db s))).
Proof.
  unfold SimpleMemoryDelete, exec_delete.
  destruct (RequireString quote req "query") as [queryParam|err]; [|auto].
  destruct (is_empty (TrimSpace queryParam)); [auto|].
  destruct (exec_err e); [auto|].
  destruct (_ =? 0)%Z; simpl; unfold Printf;
    destruct (disableLogging s), (log_ok e); simpl; eauto.
Qed.

(** List and Search only read. *)
Lemma SimpleMemoryList_reads s e req :
  let s' := (SimpleMemoryList quote s e req).2 in
  simple_memories (db s') = simple_memories (db s)
  /\ sqlite_sequence (db s') = sqlite_sequence (db s)
  /\ logger s' = logger s /\ disableLogging s' = disableLogging s.
Proof.
  unfold SimpleMemoryList, query_all.
  destruct (exec_err e); [auto|].
  destruct (rows_err e); [auto|].
  destruct (_ =? _)%nat; auto.
Qed.

Lemma SimpleMemorySearch_reads s e req :
  let s' := (SimpleMemorySearch quote s e req).2 in
  simple_memories (db s') = simple_memories (db s)
  /\ sqlite_sequence (db s') = sqlite_sequence (db s)
  /\ logger s' = logger s /\ disableLogging s' = disableLogging s.
Proof.
  unfold SimpleMemorySearch, query_like.
  destruct (RequireString quote req "query") as [queryParam|err]; [|auto].
  destruct (is_empty (TrimSpace queryParam)); [auto|].
  destruct (exec_err e); [auto|].
  destruct (rows_err e); [auto|].
  destruct (_ =? _)%nat; auto.
Qed.

End MoreHandlerLemmas.

(** ** Further properties of the handlers *)

Section HandlerProperties.

Context (quote : gostring -> gostring).

(** X1. A successful Add is seen by the next List as one more record, placed
    last: its id is above the ids of all records listed before, its
    content is the trimmed memory, its title, tags and status the trimmed
    arguments (the empty string for one that is absent), and the records
    listed before are listed unchanged. *)
Theorem Add_appends_to_List s e req :
  (SimpleMemoryAdd quote s e req).1 = NewToolResultText (go "Simple-memory added.") ->
  exists id memory,
    string_arg req "memory" = Some memory
    /\ Forall (fun k => (k < id)%Z) ((list_rows (db s)).*1)
    /\ list_rows (db (SimpleMemoryAdd quote s e req).2)
       = list_rows (db s)
         ++ [(id,
              {| row_title := Some (TrimSpace (GetString req "title" []));
                 row_tags := Some (TrimSpace (GetString req "tags" []));
                 row_status := Some (TrimSpace (GetString req "status" []));
                 row_content := TrimSpace memory;
                 row_created_at := now e |})].
Proof.
  intros Hok.
  destruct (SimpleMemoryAdd_success_inv quote s e req Hok)
    as (memory & Ha & Hm & He & Hmax & Ht & Hseq).
  exists (new_rowid (db s)), memory. split; [exact Ha|]. split.
  - apply Forall_fmap, Forall_forall. intros [k x] Hin. simpl.
    apply elem_of_list_rows in Hin as [Hin _].
    eapply new_rowid_above, Hin.
  - apply list_rows_insert_last; [exact Ht | apply new_rowid_above |].
    unfold nonblank. simpl. apply TrimSpace_nonblank, Hm.
Qed.

(** X2. List and Search never change the table, the id counter, the log or
    the logging flag, whatever the request and whatever the store answers. *)
Theorem List_and_Search_only_read s e req :
  (simple_memories (db (SimpleMemoryList quote s e req).2)
   = simple_memories (db s)
   /\ sqlite_sequence (db (SimpleMemoryList quote s e req).2)
      = sqlite_sequence (db s)
   /\ logger (SimpleMemoryList quote s e req).2 = logger s
   /\ disableLogging (SimpleMemoryList quote s e req).2 = disableLogging s)
  /\ (simple_memories (db (SimpleMemorySearch quote s e req).2)
      = simple_memories (db s)
      /\ sqlite_sequence (db (SimpleMemorySearch quote s e req).2)
         = sqlite_sequence (db s)
      /\ logger (SimpleMemorySearch quote s e req).2 = logger s
      /\ disableLogging (SimpleMemorySearch quote s e req).2 = disableLogging s).
Proof.
  split; [apply SimpleMemoryList_reads | apply SimpleMemorySearch_reads].
Qed.

(** X3. Search returns the records List returns that satisfy the WHERE
    clause, in the order in which List returns them. *)
Theorem Search_is_filtered_List s e req queryParam :
  string_arg req "query" = Some queryParam ->
  is_empty (TrimSpace queryParam) = false ->
  exec_err e = None -> rows_err e = None ->
  (SimpleMemoryList quote s e req).1
  = NewToolResultText (Join (record_json quote <$> list_rows (db s)) [10])
  /\ (SimpleMemorySearch quote s e req).1
     = NewToolResultText
         (search_text
            (record_json quote
               <$> filter (selected (like_pattern (TrimSpace queryParam)))
                     (list_rows (db s)))).
Proof.
  intros Ha Hq He Hr. apply string_arg_Some in Ha. split.
  - by rewrite SimpleMemoryList_ok.
  - rewrite (SimpleMemorySearch_ok _ _ _ _ _ Ha) by assumption.
    by rewrite search_rows_filter_list_rows.
Qed.

(** X4. Delete removes the records the WHERE clause holds of and no other,
    whether or not their content is blank; the records it leaves keep
    their fields, the id counter stays, and the count it reports is the
    number of records that went. *)
Theorem Delete_removes_exactly_selected s e req queryParam :
  string_arg req "query" = Some queryParam ->
  is_empty (TrimSpace queryParam) = false ->
  exec_err e = None ->
  let s' := (SimpleMemoryDelete quote s e req).2 in
  (forall id r,
     simple_memories (db s') !! id = Some r <->
     (simple_memories (db s) !! id = Some r
      /\ where_like (like_pattern (TrimSpace queryParam)) r = false))
  /\ sqlite_sequence (db s') = sqlite_sequence (db s)
  /\ (SimpleMemoryDelete quote s e req).1
     = NewToolResultText
         (deleted_text
            (Z.of_nat (size (simple_memories (db s)))
             - Z.of_nat (size (simple_memories (db s')))))%Z.
Proof.
  intros Ha Hq He s'. apply string_arg_Some in Ha.
  destruct (SimpleMemoryDelete_ok quote s _ _ _ Ha Hq He) as [Hres Htab].
  fold s' in Htab. split; [|split].
  - intros id r. rewrite Htab, map_lookup_filter_Some. unfold selected. simpl.
    destruct (where_like _ r); split; intros [H1 H2]; split; auto;
      congruence.
  - destruct (SimpleMemoryDelete_db_cases quote s e req) as [H _]. exact H.
  - rewrite Hres, Htab. do 2 f_equal.
    pose proof (size_filter_complement
                  (selected (like_pattern (TrimSpace queryParam)))
                  (simple_memories (db s))). lia.
Qed.

(** X5. After a Delete, the same query finds nothing left: Search answers
    that nothing matches, and a second Delete removes nothing. *)
Theorem Delete_leaves_no_match s e e' req queryParam :
  string_arg req "query" = Some queryParam ->
  is_empty (TrimSpace queryParam) = false ->
  exec_err e = None -> exec_err e' = None -> rows_err e' = None ->
  let s' := (SimpleMemoryDelete quote s e req).2 in
  (SimpleMemorySearch quote s' e' req).1
  = NewToolResultText (go "No matching simple-memories found.")
  /\ (SimpleMemoryDelete quote s' e' req).1
     = NewToolResultText (go "No simple-memories deleted (no match).")
  /\ simple_memories (db (SimpleMemoryDelete quote s' e' req).2)
     = simple_memories (db s').
Proof.
  intros Ha Hq He He' Hr' s'. apply string_arg_Some in Ha.
  destruct (SimpleMemoryDelete_ok quote s _ _ _ Ha Hq He) as [_ Htab].
  fold s' in Htab.
  set (pat := like_pattern (TrimSpace queryParam)) in *.
  assert (Hnone : forall id r,
             simple_memories (db s') !! id = Some r -> ~ selected pat (id, r)).
  { intros id r H. rewrite Htab in H.
    apply map_lookup_filter_Some in H as [_ H]. exact H. }
  assert (Hempty : filter (selected pat) (simple_memories (db s')) = ∅).
  { apply map_empty. intros id. apply map_lookup_filter_None. right.
    intros r H. exact (Hnone _ _ H). }
  assert (Hid : filter (fun kv => ~ selected pat kv) (simple_memories (db s'))
                = simple_memories (db s')).
  { apply map_filter_id. intros id r H. exact (Hnone _ _ H). }
  destruct (SimpleMemoryDelete_ok quote s' _ _ _ Ha Hq He') as [Hres2 Htab2].
  fold pat in Hres2, Htab2.
  split; [|split].
  - rewrite (SimpleMemorySearch_ok _ _ _ _ _ Ha) by assumption.
    fold pat. unfold search_rows. fold pat.
    replace (filter (selected pat) (map_to_list (simple_memories (db s'))))
      with (@nil (Z * Row)); [reflexivity|].
    symmetry. apply length_zero_iff_nil.
    rewrite length_filter_map_to_list, Hempty. apply map_size_empty.
  - rewrite Hres2, Hempty, map_size_empty. reflexivity.
  - by rewrite Htab2, Hid.
Qed.

End HandlerProperties.

(** ** Properties of runs *)

Section Runs.

Context (quote : gostring -> gostring).

(** A relation that holds across each handler holds across every run. *)
Lemma after_calls_ind (P : SimpleMemoryServer -> SimpleMemoryServer -> Prop) :
  (forall s, P s s) ->
  (forall s1 s2 s3, P s1 s2 -> P s2 s3 -> P s1 s3) ->
  (forall s e req, P s (SimpleMemoryAdd quote s e req).2) ->
  (forall s e req, P s (SimpleMemoryList quote s e req).2) ->
  (forall s e req, P s (SimpleMemorySearch quote s e req).2) ->
  (forall s e req, P s (SimpleMemoryDelete quote s e req).2) ->
  forall cs s, P s (after_calls quote s cs).
Proof.
  intros Hrefl Htrans Hadd Hlist Hsearch Hdelete.
  induction cs as [|c cs IH]; intros s; [apply Hrefl|].
  unfold after_calls. simpl. eapply Htrans; [|apply IH].
  unfold after_call, registered.
  repeat (destruct (String.eqb _ _); [auto|]). apply Hrefl.
Qed.

Lemma SimpleMemoryAdd_log s e req :
  let s' := (SimpleMemoryAdd quote s e req).2 in
  disableLogging s' = disableLogging s
  /\ (logger s' = logger s
      \/ (disableLogging s = false
          /\ (SimpleMemoryAdd quote s e req).1
             = NewToolResultText (go "Simple-memory added.")
          /\ exists line, logger s' = logger s ++ [line])).
Proof.
  unfold SimpleMemoryAdd, exec_insert.
  destruct (RequireString quote req "memory") as [memory|err]; [|auto].
  destruct (is_empty (TrimSpace memory)); [auto|].
  destruct (exec_err e); [auto|].
  destruct (_ <? _)%Z; [auto|].
  simpl. unfold Printf.
  destruct (disableLogging s) eqn:Hd, (log_ok e); simpl; rewrite ?Hd; eauto 8.
Qed.

Lemma SimpleMemoryDelete_log s e req :
  let s' := (SimpleMemoryDelete quote s e req).2 in
  disableLogging s' = disableLogging s
  /\ (logger s' = logger s
      \/ (disableLogging s = false
          /\ (exists text, (SimpleMemoryDelete quote s e req).1
                           = NewToolResultText text)
          /\ exists line, logger s' = logger s ++ [line])).
Proof.
  unfold SimpleMemoryDelete, exec_delete.
  destruct (RequireString quote req "query") as [queryParam|err]; [|auto].
  destruct (is_empty (TrimSpace queryParam)); [auto|].
  destruct (exec_err e); [auto|].
  destruct (_ =? 0)%Z; simpl; unfold Printf;
    destruct (disableLogging s) eqn:Hd, (log_ok e); simpl; rewrite ?Hd;
    eauto 8.
Qed.

(** X6. Across any run the log only grows, a server started with logging
    disabled never writes to it, and the logging flag is never changed. *)
Theorem log_only_grows s cs :
  let s' := after_calls quote s cs in
  disableLogging s' = disableLogging s
  /\ logger s `prefix_of` logger s'
  /\ (disableLogging s = true -> logger s' = logger s).
Proof.
  revert cs s.
  apply (after_calls_ind
           (fun s s' =>
              disableLogging s' = disableLogging s
              /\ logger s `prefix_of` logger s'
              /\ (disableLogging s = true -> logger s' = logger s))).
  - intros s. repeat split; reflexivity.
  - intros s1 s2 s3 (Hd1 & Hp1 & Hq1) (Hd2 & Hp2 & Hq2). split; [congruence|].
    split; [by etrans|].
    intros H. rewrite Hq2, Hq1; congruence.
  - intros s e req. destruct (SimpleMemoryAdd_log s e req) as [Hd [H|(Hf & _ & line & H)]].
    + rewrite H. repeat split; auto.
    + rewrite H. split; [exact Hd|]. split; [by apply prefix_app_r|congruence].
  - intros s e req.
    destruct (SimpleMemoryList_reads quote s e req) as (_ & _ & Hl & Hd).
    rewrite Hl. repeat split; auto.
  - intros s e req.
    destruct (SimpleMemorySearch_reads quote s e req) as (_ & _ & Hl & Hd).
    rewrite Hl. repeat split; auto.
  - intros s e req. destruct (SimpleMemoryDelete_log s e req) as [Hd [H|(Hf & _ & line & H)]].
    + rewrite H. repeat split; auto.
    + rewrite H. split; [exact Hd|]. split; [by apply prefix_app_r|congruence].
Qed.

Lemma grown_from_refl d : grown_from d d.
Proof. split; [lia | auto]. Qed.

Lemma grown_from_trans d1 d2 d3 :
  grown_from d1 d2 -> grown_from d2 d3 -> grown_from d1 d3.
Proof.
  intros [H1 K1] [H2 K2]. split; [lia|].
  intros id r H Hle. apply K1; [|exact Hle]. apply K2; [exact H | lia].
Qed.

Lemma SimpleMemoryAdd_grows s e req :
  grown_from (db s) (db (SimpleMemoryAdd quote s e req).2)
  /\ (ids_bounded (db s) -> ids_bounded (db (SimpleMemoryAdd quote s e req).2)).
Proof.
  destruct (SimpleMemoryAdd_db_cases quote s e req) as [[Ht Hs]|Hok].
  - split.
    + split; [lia|]. intros id r H _. by rewrite <- Ht.
    + unfold ids_bounded. by rewrite Ht, Hs.
  - destruct (SimpleMemoryAdd_success_inv quote s e req Hok)
      as (memory & _ & _ & _ & _ & Ht & Hs).
    pose proof (new_rowid_above_sequence (db s)) as Hnew.
    split.
    + split; [lia|]. intros id r H Hle. rewrite Ht in H.
      rewrite lookup_insert_ne in H by lia. exact H.
    + intros Hb. unfold ids_bounded. rewrite Ht, Hs.
      apply map_Forall_insert_2; [lia|].
      intros id r H. specialize (Hb _ _ H). simpl in Hb. lia.
Qed.

Lemma SimpleMemoryDelete_grows s e req :
  grown_from (db s) (db (SimpleMemoryDelete quote s e req).2)
  /\ (ids_bounded (db s) -> ids_bounded (db (SimpleMemoryDelete quote s e req).2)).
Proof.
  destruct (SimpleMemoryDelete_db_cases quote s e req) as [Hs [Ht|[pat Ht]]].
  - split.
    + split; [lia|]. intros id r H _. by rewrite <- Ht.
    + unfold ids_bounded. by rewrite Ht, Hs.
  - split.
    + split; [lia|]. intros id r H _. rewrite Ht in H.
      by apply map_lookup_filter_Some in H as [H _].
    + intros Hb. unfold ids_bounded. rewrite Ht, Hs.
      intros id r H. apply map_lookup_filter_Some in H as [H _].
      exact (Hb _ _ H).
Qed.

(** X7. Ids are never reused and records are never changed in place: across
    any run from a store whose ids are at most its id counter, the counter
    does not go back, every id still is at most the counter, and a record
    found afterwards under an id the counter had reached at the start was
    there at the start with the same fields.  So an id that was deleted,
    or was free below the counter, is never given to a later record. *)
Theorem ids_never_reused s cs :
  ids_bounded (db s) ->
  grown_from (db s) (db (after_calls quote s cs))
  /\ ids_bounded (db (after_calls quote s cs)).
Proof.
  revert cs s.
  apply (after_calls_ind
           (fun s s' =>
              ids_bounded (db s) ->
              grown_from (db s) (db s') /\ ids_bounded (db s'))).
  - intros s Hb. split; [apply grown_from_refl | exact Hb].
  - intros s1 s2 s3 H12 H23 Hb.
    destruct (H12 Hb) as [G12 B2]. destruct (H23 B2) as [G23 B3].
    split; [by eapply grown_from_trans | exact B3].
  - intros s e req Hb. destruct (SimpleMemoryAdd_grows s e req). auto.
  - intros s e req Hb.
    destruct (SimpleMemoryList_reads quote s e req) as (Ht & Hs & _).
    split.
    + split; [lia|]. intros id r H _. by rewrite <- Ht.
    + unfold ids_bounded. by rewrite Ht, Hs.
  - intros s e req Hb.
    destruct (SimpleMemorySearch_reads quote s e req) as (Ht & Hs & _).
    split.
    + split; [lia|]. intros id r H _. by rewrite <- Ht.
    + unfold ids_bounded. by rewrite Ht, Hs.
  - intros s e req Hb. destruct (SimpleMemoryDelete_grows s e req). auto.
Qed.

(** X8. No run stores a record with blank content: from a table without
    such a record every run leads to a table without one, and List then
    leaves no record of the table out. *)
Theorem no_blank_record_stored s cs :
  map_Forall (fun _ r => nonblank r) (simple_memories (db s)) ->
  map_Forall (fun _ r => nonblank r)
    (simple_memories (db (after_calls quote s cs)))
  /\ forall id r,
       ((id, r) ∈ list_rows (db (after_calls quote s cs))) <->
       simple_memories (db (after_calls quote s cs)) !! id = Some r.
Proof.
  intros H.
  assert (Hinv : map_Forall (fun _ r => nonblank r)
                   (simple_memories (db (after_calls quote s cs)))).
  { revert cs s H.
    apply (after_calls_ind
             (fun s s' =>
                map_Forall (fun _ r => nonblank r) (simple_memories (db s)) ->
                map_Forall (fun _ r => nonblank r) (simple_memories (db s')))).
    - auto.
    - auto.
    - intros s e req. apply SimpleMemoryAdd_keeps_nonblank.
    - intros s e req Hs.
      destruct (SimpleMemoryList_reads quote s e req) as (Ht & _).
      by rewrite Ht.
    - intros s e req Hs.
      destruct (SimpleMemorySearch_reads quote s e req) as (Ht & _).
      by rewrite Ht.
    - intros s e req. apply SimpleMemoryDelete_keeps_nonblank. }
  split; [exact Hinv|].
  intros id r. rewrite elem_of_list_rows. split; [tauto|].
  intros Hl. split; [exact Hl | exact (Hinv _ _ Hl)].
Qed.

End Runs.

(** ** Further lemmas on trimming and on LIKE *)

Lemma TrimLeftFunc_split f x :
  exists pre, x = pre ++ TrimLeftFunc f x /\ forallb f pre = true.
Proof.
  induction x as [|c x (pre & E & Hp)]; [by exists []|].
  simpl. destruct (f c) eqn:Hc.
  - exists (c :: pre). simpl. rewrite Hc, Hp. split; [by f_equal|reflexivity].
  - by exists [].
Qed.

Lemma TrimRightFunc_split f x :
  exists post, x = TrimRightFunc f x ++ post /\ forallb f post = true.
Proof.
  induction x as [|c x (post & E & Hp)]; [by exists []|].
  simpl. destruct (TrimRightFunc f x) as [|d t] eqn:T.
  - simpl in E. subst x. destruct (f c) eqn:Hc.
    + exists (c :: post). simpl. by rewrite Hc, Hp.
    + by exists post.
  - exists post. split; [|exact Hp]. simpl. by f_equal.
Qed.

(** Trimming removes white space at the two ends and nothing else. *)
Lemma TrimSpace_split x :
  exists pre post,
    x = pre ++ TrimSpace x ++ post /\ blank pre = true /\ blank post = true.
Proof.
  unfold TrimSpace, TrimFunc, blank.
  destruct (TrimLeftFunc_split IsSpace x) as (pre & E1 & H1).
  destruct (TrimRightFunc_split IsSpace (TrimLeftFunc IsSpace x))
    as (post & E2 & H2).
  exists pre, post. split; [|auto]. by rewrite <- E2.
Qed.

Lemma sqlite3Tolower_idem c : sqlite3Tolower (sqlite3Tolower c) = sqlite3Tolower c.
Proof.
  unfold sqlite3Tolower.
  destruct ((65 <=? c) && (c <=? 90)) eqn:E; [|by rewrite E].
  apply andb_prop in E as [E1 E2]. apply N.leb_le in E1, E2.
  replace (c + 32 <=? 90) with false by (symmetry; apply N.leb_gt; lia).
  by rewrite andb_false_r.
Qed.

Lemma sqlite3Tolower_eqb c k :
  (k <? 65) = true -> (sqlite3Tolower c =? k) = (c =? k).
Proof.
  intros Hk. apply N.ltb_lt in Hk. unfold sqlite3Tolower.
  destruct ((65 <=? c) && (c <=? 90)) eqn:E; [|reflexivity].
  apply andb_prop in E as [E1 E2]. apply N.leb_le in E1, E2.
  transitivity false; [apply N.eqb_neq | symmetry; apply N.eqb_neq]; lia.
Qed.

Lemma sqlite3Tolower_matchOne c : (sqlite3Tolower c =? matchOne) = (c =? matchOne).
Proof.
  unfold sqlite3Tolower, matchOne.
  destruct ((65 <=? c) && (c <=? 90)) eqn:E; [|reflexivity].
  apply andb_prop in E as [E1 E2]. apply N.leb_le in E1, E2.
  transitivity false; [apply N.eqb_neq | symmetry; apply N.eqb_neq]; lia.
Qed.

(** The ASCII case of the pattern does not matter to LIKE. *)
Lemma patternCompare_fold_pattern p z :
  patternCompare (ToLowerASCII p) z = patternCompare p z.
Proof.
  revert z. induction p as [|c p IH]; intros z; [reflexivity|].
  change (ToLowerASCII (c :: p)) with (sqlite3Tolower c :: ToLowerASCII p).
  destruct (c =? matchAll) eqn:Hc.
  - apply N.eqb_eq in Hc. subst c.
    change (sqlite3Tolower matchAll) with matchAll.
    induction z as [|d z IHz].
    + rewrite !patternCompare_matchAll. by rewrite IH.
    + rewrite (patternCompare_matchAll (ToLowerASCII p)),
        (patternCompare_matchAll p). by rewrite IH, IHz.
  - simpl. rewrite (sqlite3Tolower_eqb c matchAll) by reflexivity.
    fold matchAll. rewrite Hc.
    destruct z as [|d z]; [reflexivity|].
    rewrite sqlite3Tolower_matchOne, !like_char_eq_fold, sqlite3Tolower_idem.
    by rewrite IH.
Qed.

Lemma c_str_ToLowerASCII x : c_str (ToLowerASCII x) = ToLowerASCII (c_str x).
Proof.
  induction x as [|c x IH]; [reflexivity|].
  change (ToLowerASCII (c :: x)) with (sqlite3Tolower c :: ToLowerASCII x).
  simpl. rewrite (sqlite3Tolower_eqb c 0) by reflexivity.
  destruct (c =? 0); [reflexivity|]. by rewrite IH.
Qed.

Lemma ToLowerASCII_like_pattern q :
  ToLowerASCII (like_pattern q) = like_pattern (ToLowerASCII q).
Proof.
  unfold like_pattern, ToLowerASCII. by rewrite !map_app.
Qed.

Lemma likeFunc_fold_pattern pat x :
  likeFunc (ToLowerASCII pat) x = likeFunc pat x.
Proof.
  unfold likeFunc. by rewrite c_str_ToLowerASCII, patternCompare_fold_pattern.
Qed.

(** Queries that differ in ASCII case only select the same rows. *)
Lemma where_like_fold_query q1 q2 r :
  ToLowerASCII q1 = ToLowerASCII q2 ->
  where_like (like_pattern q1) r = where_like (like_pattern q2) r.
Proof.
  intros E.
  assert (H : forall v, sql_like v (like_pattern q1) = sql_like v (like_pattern q2)).
  { intros [x|]; [|reflexivity]. simpl.
    rewrite <- (likeFunc_fold_pattern (like_pattern q1)),
      <- (likeFunc_fold_pattern (like_pattern q2)),
      !ToLowerASCII_like_pattern, E. reflexivity. }
  unfold where_like. by rewrite !H.
Qed.

(** A pattern made of [%] only accepts every text. *)
Lemma patternCompare_all_matchAll p z :
  p <> [] -> all_matchAll p = true -> patternCompare p z = true.
Proof.
  revert z. induction p as [|c p IH]; intros z Hne Hp; [congruence|].
  simpl in Hp. apply andb_prop in Hp as [Hc Hp]. apply N.eqb_eq in Hc. subst c.
  destruct p as [|c' p'].
  - apply patternCompare_trailing_matchAll.
  - rewrite patternCompare_matchAll, IH by (congruence || assumption).
    reflexivity.
Qed.

Lemma c_str_all_matchAll p : all_matchAll p = true -> c_str p = p.
Proof.
  induction p as [|c p IH]; [reflexivity|].
  simpl. intros H. apply andb_prop in H as [Hc Hp]. apply N.eqb_eq in Hc.
  subst c. simpl. by rewrite IH.
Qed.

Lemma where_like_all_matchAll q r :
  all_matchAll q = true -> where_like (like_pattern q) r = true.
Proof.
  intros Hq.
  assert (Hall : all_matchAll (like_pattern q) = true).
  { unfold all_matchAll in *. unfold like_pattern.
    rewrite !forallb_app.
    apply andb_true_iff; split; [reflexivity|].
    apply andb_true_iff; split; [exact Hq | reflexivity]. }
  assert (H : likeFunc (like_pattern q) (row_content r) = true).
  { unfold likeFunc. rewrite (c_str_all_matchAll _ Hall).
    apply patternCompare_all_matchAll; [|exact Hall].
    unfold like_pattern. simpl. discriminate. }
  unfold where_like. rewrite sql_true_or. simpl sql_like. rewrite H.
  apply orb_true_r.
Qed.

(** ** Properties of the handlers on their arguments *)

Section ArgumentProperties.

Context (quote : gostring -> gostring).



(** X10. A call to Add or Delete that does not answer with a success text has
    changed neither the table, nor the id counter, nor the log. *)
Theorem failed_call_has_no_effect s e req :
  ((exists text, (SimpleMemoryAdd quote s e req).1 = NewToolResultText text)
   \/ (simple_memories (db (SimpleMemoryAdd quote s e req).2)
       = simple_memories (db s)
       /\ sqlite_sequence (db (SimpleMemoryAdd quote s e req).2)
          = sqlite_sequence (db s)
       /\ logger (SimpleMemoryAdd quote s e req).2 = logger s))
  /\ ((exists text, (SimpleMemoryDelete quote s e req).1 = NewToolResultText text)
      \/ (simple_memories (db (SimpleMemoryDelete quote s e req).2)
          = simple_memories (db s)
          /\ sqlite_sequence (db (SimpleMemoryDelete quote s e req).2)
             = sqlite_sequence (db s)
          /\ logger (SimpleMemoryDelete quote s e req).2 = logger s)).
Proof.
  split.
  - unfold SimpleMemoryAdd, exec_insert.
    destruct (RequireString quote req "memory") as [memory|err]; [|auto].
    destruct (is_empty (TrimSpace memory)); [auto|].
    destruct (exec_err e); [auto|].
    destruct (_ <? _)%Z; [auto|]. left. eauto.
  - unfold SimpleMemoryDelete, exec_delete.
    destruct (RequireString quote req "query") as [queryParam|err]; [|auto].
    destruct (is_empty (TrimSpace queryParam)); [auto|].
    destruct (exec_err e); [auto|].
    left. destruct (_ =? 0)%Z; eauto.
Qed.

Lemma is_empty_ToLowerASCII x y :
  ToLowerASCII x = ToLowerASCII y -> is_empty x = is_empty y.
Proof. destruct x, y; simpl; intros H; congruence. Qed.

(** X11. Search and Delete do not tell ASCII upper case from lower case in
    the query, wild cards or not: two queries that differ in the case of
    ASCII letters only get the same answer from Search and from Delete,
    and Delete leaves the same table. *)
Theorem query_case_is_ignored s e req1 req2 q1 q2 :
  string_arg req1 "query" = Some q1 -> string_arg req2 "query" = Some q2 ->
  ToLowerASCII (TrimSpace q1) = ToLowerASCII (TrimSpace q2) ->
  (SimpleMemorySearch quote s e req1).1 = (SimpleMemorySearch quote s e req2).1
  /\ (SimpleMemoryDelete quote s e req1).1
     = (SimpleMemoryDelete quote s e req2).1
  /\ simple_memories (db (SimpleMemoryDelete quote s e req1).2)
     = simple_memories (db (SimpleMemoryDelete quote s e req2).2).
Proof.
  intros H1 H2 E. apply string_arg_Some in H1, H2.
  pose proof (is_empty_ToLowerASCII _ _ E) as Hemp.
  assert (Hsel : forall kv,
             selected (like_pattern (TrimSpace q1)) kv
             <-> selected (like_pattern (TrimSpace q2)) kv).
  { intros kv. unfold selected. by rewrite (where_like_fold_query _ _ _ E). }
  assert (Hf : filter (selected (like_pattern (TrimSpace q1)))
                 (simple_memories (db s))
               = filter (selected (like_pattern (TrimSpace q2)))
                   (simple_memories (db s))).
  { apply map_filter_ext. intros i x _. apply Hsel. }
  assert (Hn : filter (fun kv => ~ selected (like_pattern (TrimSpace q1)) kv)
                 (simple_memories (db s))
               = filter (fun kv => ~ selected (like_pattern (TrimSpace q2)) kv)
                   (simple_memories (db s))).
  { apply map_filter_ext. intros i x _. by rewrite Hsel. }
  assert (Hl : filter (selected (like_pattern (TrimSpace q1)))
                 (map_to_list (simple_memories (db s)))
               = filter (selected (like_pattern (TrimSpace q2)))
                   (map_to_list (simple_memories (db s)))).
  { apply list_filter_iff. exact Hsel. }
  split; [|split].
  - unfold SimpleMemorySearch, query_like.
    rewrite (RequireString_string _ _ _ _ H1), (RequireString_string _ _ _ _ H2),
      Hemp.
    destruct (is_empty (TrimSpace q2)); [reflexivity|].
    destruct (exec_err e); [reflexivity|]. simpl simple_memories.
    rewrite Hl. destruct (rows_err e); [reflexivity|].
    destruct (_ =? _)%nat; reflexivity.
  - unfold SimpleMemoryDelete, exec_delete.
    rewrite (RequireString_string _ _ _ _ H1), (RequireString_string _ _ _ _ H2),
      Hemp.
    destruct (is_empty (TrimSpace q2)); [reflexivity|].
    destruct (exec_err e); [reflexivity|]. simpl simple_memories.
    rewrite Hf. destruct (_ =? 0)%Z; reflexivity.
  - unfold SimpleMemoryDelete, exec_delete.
    rewrite (RequireString_string _ _ _ _ H1), (RequireString_string _ _ _ _ H2),
      Hemp.
    destruct (is_empty (TrimSpace q2)); [reflexivity|].
    destruct (exec_err e); [reflexivity|]. simpl simple_memories.
    rewrite Hf, Hn.
    destruct (_ =? 0)%Z; simpl; unfold Printf;
      destruct (disableLogging s), (log_ok e); reflexivity.
Qed.

Lemma TrimSpace_trimming_of x : trimming_of x (TrimSpace x).
Proof.
  destruct (TrimSpace_split x) as (pre & post & E & H1 & H2).
  exists pre, post. repeat split; try assumption; apply TrimSpace_trimmed.
Qed.

(** X12. What a successful Add stores is what it was given with the white
    space at the two ends taken off and nothing else: white space inside
    the memory, the title, the tags and the status is kept. *)
Theorem Add_trims_only_the_ends s e req :
  (SimpleMemoryAdd quote s e req).1 = NewToolResultText (go "Simple-memory added.") ->
  exists id memory r,
    string_arg req "memory" = Some memory
    /\ simple_memories (db (SimpleMemoryAdd quote s e req).2) !! id = Some r
    /\ trimming_of memory (row_content r)
    /\ trimming_of (GetString req "title" []) (surface (row_title r))
    /\ trimming_of (GetString req "tags" []) (surface (row_tags r))
    /\ trimming_of (GetString req "status" []) (surface (row_status r)).
Proof.
  intros Hok.
  destruct (SimpleMemoryAdd_success_inv quote s e req Hok)
    as (memory & Ha & _ & _ & _ & Ht & _).
  eexists (new_rowid (db s)), memory, _. split; [exact Ha|]. split.
  - rewrite Ht. apply lookup_insert_eq.
  - simpl. repeat split; apply TrimSpace_trimming_of.
Qed.

(** X13. A query made of [%] characters only is not looked for as text: it
    selects every record.  Delete then empties the table and reports its
    size, and Search returns all that List returns. *)
Theorem percent_query_selects_everything s e req queryParam :
  string_arg req "query" = Some queryParam ->
  is_empty (TrimSpace queryParam) = false ->
  all_matchAll (TrimSpace queryParam) = true ->
  exec_err e = None -> rows_err e = None ->
  (SimpleMemoryDelete quote s e req).1
  = NewToolResultText
      (deleted_text (Z.of_nat (size (simple_memories (db s)))))
  /\ simple_memories (db (SimpleMemoryDelete quote s e req).2) = ∅
  /\ (SimpleMemorySearch quote s e req).1
     = NewToolResultText (search_text (record_json quote <$> list_rows (db s))).
Proof.
  intros Ha Hq Hall He Hr. apply string_arg_Some in Ha.
  destruct (SimpleMemoryDelete_ok quote s _ _ _ Ha Hq He) as [Hres Htab].
  assert (Hsel : forall kv, selected (like_pattern (TrimSpace queryParam)) kv).
  { intros kv. apply where_like_all_matchAll, Hall. }
  split; [|split].
  - rewrite Hres, map_filter_id; [reflexivity|]. intros i x _. apply Hsel.
  - rewrite Htab. apply map_empty. intros i.
    apply map_lookup_filter_None. right. intros x _ Hn. apply Hn, Hsel.
  - rewrite (SimpleMemorySearch_ok _ _ _ _ _ Ha) by assumption.
    rewrite search_rows_filter_list_rows, filter_all; [reflexivity|].
    apply Forall_forall. intros kv _. apply Hsel.
Qed.

End ArgumentProperties.

(** ** Lemmas on start-up *)

Lemma existsb_eqb_true (c : string) l : existsb (String.eqb c) l = true <-> c ∈ l.
Proof.
  induction l as [|a l IH]; simpl.
  - split; [discriminate | inversion 1].
  - rewrite elem_of_cons, orb_true_iff, IH, String.eqb_eq. tauto.
Qed.

Lemma existsb_eqb_false (c : string) l : existsb (String.eqb c) l = false <-> c ∉ l.
Proof.
  rewrite <- existsb_eqb_true. destruct (existsb _ l); split; congruence.
Qed.

Lemma columns_added_app sent sent' :
  columns_added (sent ++ sent') = columns_added sent ++ columns_added sent'.
Proof. apply omap_app. Qed.

Lemma filter_ext_elem_of {A} (P1 P2 : A -> Prop)
    `{!forall x, Decision (P1 x)} `{!forall x, Decision (P2 x)} (l : list A) :
  (forall x, x ∈ l -> (P1 x <-> P2 x)) -> filter P1 l = filter P2 l.
Proof.
  induction l as [|a l IH]; intros Hext; [reflexivity|].
  assert (Ha : P1 a <-> P2 a) by (apply Hext; left).
  assert (Hl : filter P1 l = filter P2 l).
  { apply IH. intros x Hx. apply Hext. by right. }
  destruct (decide (P1 a)) as [Hp|Hp].
  - rewrite !filter_cons_True by tauto. by rewrite Hl.
  - rewrite !filter_cons_False by tauto. exact Hl.
Qed.

Lemma filter_none {A} (P : A -> Prop) `{!forall x, Decision (P x)} (l : list A) :
  Forall (fun x => ~ P x) l -> filter P l = [].
Proof.
  induction 1 as [|x l Hx Hl IH]; [reflexivity|].
  by rewrite filter_cons_False.
Qed.

(** When nothing fails, the loop adds the columns that are missing, each
    once, in the order of its visits, and sends ALTER TABLE for no other. *)
Lemma migrate_adds_missing ie order cols d sent :
  (forall col, col ∈ order ->
     table_info_err ie col = None /\ table_info_rows_err ie col = None
     /\ add_column_err ie col = false) ->
  NoDup order ->
  exists sent',
    migrate ie order {| disk_columns := Some cols; disk_db := d |} sent
    = (None,
       {| disk_columns := Some (cols ++ filter (fun c => c ∉ cols) order);
          disk_db := d |},
       sent')
    /\ columns_added sent'
       = columns_added sent ++ filter (fun c => c ∉ cols) order.
Proof.
  revert cols sent. induction order as [|col rest IH]; intros cols sent Hf Hnd.
  - exists sent. simpl. rewrite filter_nil, !app_nil_r. auto.
  - apply NoDup_cons in Hnd as [Hnotin Hnd].
    destruct (Hf col) as (H1 & H2 & H3); [left|].
    assert (Hf' : forall c, c ∈ rest ->
              table_info_err ie c = None /\ table_info_rows_err ie c = None
              /\ add_column_err ie c = false).
    { intros c Hc. apply Hf. by right. }
    simpl migrate. unfold column_found. rewrite H1, H2.
    unfold table_info at 1. cbn [disk_columns].
    destruct (existsb (String.eqb col) cols) eqn:Hex.
    + apply existsb_eqb_true in Hex.
      destruct (IH cols (sent ++ [TableInfo]) Hf' Hnd) as (sent' & E & Hs).
      exists sent'. rewrite filter_cons_False by (intros Hn; by apply Hn).
      split; [exact E|]. rewrite Hs, columns_added_app. simpl.
      by rewrite app_nil_r.
    + unfold add_column. cbn [disk_columns disk_db]. rewrite Hex, H3.
      cbn [orb].
      apply existsb_eqb_false in Hex.
      destruct (IH (cols ++ [col]) ((sent ++ [TableInfo]) ++ [AddColumn col])
                  Hf' Hnd) as (sent' & E & Hs).
      assert (Hfil : filter (fun c => c ∉ cols ++ [col]) rest
                     = filter (fun c => c ∉ cols) rest).
      { apply filter_ext_elem_of. intros c Hc.
        rewrite elem_of_app, list_elem_of_singleton. split; [tauto|].
        intros Hn [H | ->]; [tauto | contradiction]. }
      exists sent'. rewrite filter_cons_True by exact Hex.
      rewrite Hfil in E, Hs.
      assert (Hc : cols ++ col :: filter (fun c => c ∉ cols) rest
                   = (cols ++ [col]) ++ filter (fun c => c ∉ cols) rest)
        by (by rewrite <- app_assoc).
      rewrite Hc. split; [exact E|].
      rewrite Hs, !columns_added_app. simpl.
      by rewrite app_nil_r, <- app_assoc.
Qed.

(** Whatever fails, the loop keeps the columns it finds, in their order,
    adds behind them only columns it visits, and adds none twice. *)
Lemma migrate_keeps_columns ie order k sent :
  let '(_, k', _) := migrate ie order k sent in
  table_info k `prefix_of` table_info k'
  /\ (forall c, c ∈ table_info k' -> c ∈ table_info k \/ c ∈ order)
  /\ (NoDup (table_info k) -> NoDup (table_info k'))
  /\ disk_db k' = disk_db k
  /\ (disk_columns k <> None -> disk_columns k' <> None).
Proof.
  revert k sent. induction order as [|col rest IH]; intros k sent.
  - simpl. repeat split; auto.
  - simpl migrate. destruct (column_found ie col k) as [[|]|err].
    + specialize (IH k (sent ++ [TableInfo])).
      destruct (migrate ie rest k (sent ++ [TableInfo])) as [[r k'] sent'].
      destruct IH as (Hp & Hin & Hnd & Hd & Hc). repeat split; auto.
      intros c Hcin. destruct (Hin c Hcin); [auto|]. right. by right.
    + specialize (IH (add_column ie col k) ((sent ++ [TableInfo]) ++ [AddColumn col])).
      destruct (migrate ie rest (add_column ie col k) _) as [[r k'] sent'].
      destruct IH as (Hp & Hin & Hnd & Hd & Hc).
      assert (Hadd : table_info k `prefix_of` table_info (add_column ie col k)
                     /\ (forall c, c ∈ table_info (add_column ie col k) ->
                                   c ∈ table_info k \/ c = col)
                     /\ (NoDup (table_info k) ->
                         NoDup (table_info (add_column ie col k)))
                     /\ disk_db (add_column ie col k) = disk_db k
                     /\ (disk_columns k <> None ->
                         disk_columns (add_column ie col k) <> None)).
      { unfold add_column, table_info.
        destruct (disk_columns k) as [cols|] eqn:Hk; [|rewrite Hk; auto 6].
        destruct (existsb (String.eqb col) cols) eqn:Hex; simpl;
          [rewrite Hk; auto 6|].
        destruct (add_column_err ie col); simpl; [rewrite Hk; auto 6|].
        apply existsb_eqb_false in Hex. repeat split.
        - by apply prefix_app_r.
        - intros c. rewrite elem_of_app, list_elem_of_singleton. tauto.
        - intros Hn. apply NoDup_app. split; [exact Hn|]. split.
          + intros x Hx Hx'. apply list_elem_of_singleton in Hx' as ->. tauto.
          + apply NoDup_singleton.
        - discriminate. }
      destruct Hadd as (Ap & Ain & And & Ad & Ac). repeat split.
      * by etrans.
      * intros c Hcin. destruct (Hin c Hcin) as [H|H]; [|right; by right].
        destruct (Ain c H) as [H' | ->]; [auto | right; left].
      * auto.
      * congruence.
      * auto.
    + repeat split; auto.
Qed.

Lemma no_faults_spec ie :
  no_faults ie = true ->
  open_err ie = None /\ create_err ie = None
  /\ forall col, col ∈ optional_columns ->
       table_info_err ie col = None /\ table_info_rows_err ie col = None
       /\ add_column_err ie col = false.
Proof.
  unfold no_faults. rewrite !andb_true_iff, forallb_forall.
  intros [[Ho Hc] Ha].
  apply bool_decide_eq_true in Ho, Hc. split; [exact Ho|]. split; [exact Hc|].
  intros col Hcol. apply list_elem_of_In in Hcol. specialize (Ha col Hcol).
  rewrite !andb_true_iff, negb_true_iff in Ha. destruct Ha as [[H1 H2] H3].
  apply bool_decide_eq_true in H1, H2. auto.
Qed.

Lemma create_table_columns k :
  disk_columns (create_table k) = Some (table_info (create_table k)).
Proof. unfold create_table, table_info. destruct (disk_columns k) eqn:E; simpl; by rewrite ?E. Qed.

Lemma create_table_twice k : create_table (create_table k) = create_table k.
Proof.
  unfold create_table at 1. by rewrite create_table_columns.
Qed.

Lemma NoDup_optional_columns : NoDup optional_columns.
Proof. by_decision. Qed.

(** The loop fails on a failed reading of rows only. *)
Lemma migrate_without_rows_err ie order k sent :
  forallb (fun col => bool_decide (table_info_rows_err ie col = None)) order = true ->
  (migrate ie order k sent).1.1 = None.
Proof.
  revert k sent. induction order as [|col rest IH]; intros k sent H; [reflexivity|].
  simpl in H. apply andb_true_iff in H as [Hc H].
  apply bool_decide_eq_true in Hc.
  simpl migrate. unfold column_found. rewrite Hc.
  destruct (table_info_err ie col); [apply IH, H|].
  destruct (existsb _ _); apply IH, H.
Qed.

(** ** Properties of start-up *)

Section StartupProperties.

Context (ToLower : gostring -> gostring).

Lemma NewSimpleMemoryServer_no_faults ie k :
  no_faults ie = true -> map_order ie ≡ₚ optional_columns ->
  let found := table_info (create_table k) in
  let missing := filter (fun c => c ∉ found) (map_order ie) in
  exists s sent,
    NewSimpleMemoryServer ToLower ie k
    = (Ok s,
       {| disk_columns := Some (found ++ missing);
          disk_db := disk_db (create_table k) |},
       sent)
    /\ db s = disk_db (create_table k)
    /\ logger s = []
    /\ columns_added sent = missing.
Proof.
  intros Hnf Hperm found missing.
  destruct (no_faults_spec ie Hnf) as (Ho & Hc & Hcols).
  assert (Hf : forall col, col ∈ map_order ie ->
             table_info_err ie col = None /\ table_info_rows_err ie col = None
             /\ add_column_err ie col = false).
  { intros col Hin. apply Hcols. by rewrite <- Hperm. }
  assert (Hnd : NoDup (map_order ie)).
  { rewrite Hperm. apply NoDup_optional_columns. }
  destruct (migrate_adds_missing ie (map_order ie) found
              (disk_db (create_table k)) [JournalWAL; CreateTable] Hf Hnd)
    as (sent' & E & Hs).
  assert (Hk : create_table k
               = {| disk_columns := Some found; disk_db := disk_db (create_table k) |}).
  { unfold found. generalize (create_table_columns k).
    destruct (create_table k) as [c d]. simpl. by intros ->. }
  unfold NewSimpleMemoryServer. rewrite Ho, Hc, Hk, E.
  eexists _, _. split; [reflexivity|]. simpl. auto.
Qed.

(** X14. When nothing fails, start-up returns a server on the rows of the
    table, which it creates empty when there is none, and leaves a table
    that has the columns it found, in their order, followed by those of
    title, tags and status that were missing, in the order of the visits
    of the loop; ALTER TABLE is sent for these and for no other column.
    All three optional columns exist afterwards. *)
Theorem startup_adds_missing_columns ie k :
  no_faults ie = true -> map_order ie ≡ₚ optional_columns ->
  let found := table_info (create_table k) in
  let missing := filter (fun c => c ∉ found) (map_order ie) in
  exists s k' sent,
    NewSimpleMemoryServer ToLower ie k = (Ok s, k', sent)
    /\ db s = disk_db (create_table k) /\ disk_db k' = disk_db (create_table k)
    /\ logger s = []
    /\ disk_columns k' = Some (found ++ missing)
    /\ columns_added sent = missing
    /\ forall c, c ∈ optional_columns -> c ∈ table_info k'.
Proof.
  intros Hnf Hperm found missing.
  destruct (NewSimpleMemoryServer_no_faults ie k Hnf Hperm)
    as (s & sent & E & Hdb & Hlog & Hadded).
  eexists s, _, sent. split; [exact E|].
  split; [exact Hdb|]. split; [reflexivity|]. split; [exact Hlog|].
  split; [reflexivity|]. split; [exact Hadded|].
  intros c Hc. unfold table_info. cbn [disk_columns].
  apply elem_of_app. destruct (decide (c ∈ found)) as [Hin|Hout]; [by left|].
  right. apply list_elem_of_filter. split; [exact Hout|].
  by rewrite Hperm.
Qed.

(** X15. Start-up is idempotent: on the file a start-up without failure has
    left, a second one sends no ALTER TABLE, leaves the file as it found
    it and returns a server on the same rows. *)
Theorem startup_twice_changes_nothing ie1 ie2 k :
  no_faults ie1 = true -> map_order ie1 ≡ₚ optional_columns ->
  no_faults ie2 = true -> map_order ie2 ≡ₚ optional_columns ->
  exists s1 k1 sent1 s2 sent2,
    NewSimpleMemoryServer ToLower ie1 k = (Ok s1, k1, sent1)
    /\ NewSimpleMemoryServer ToLower ie2 k1 = (Ok s2, k1, sent2)
    /\ columns_added sent2 = []
    /\ db s2 = db s1.
Proof.
  intros Hn1 Hp1 Hn2 Hp2.
  destruct (NewSimpleMemoryServer_no_faults ie1 k Hn1 Hp1)
    as (s1 & sent1 & E1 & Hdb1 & _ & _).
  set (found := table_info (create_table k)) in *.
  set (k1 := {| disk_columns :=
                  Some (found ++ filter (fun c => c ∉ found) (map_order ie1));
                disk_db := disk_db (create_table k) |}) in *.
  destruct (NewSimpleMemoryServer_no_faults ie2 k1 Hn2 Hp2)
    as (s2 & sent2 & E2 & Hdb2 & _ & Ha2).
  assert (Hk1 : create_table k1 = k1) by reflexivity.
  rewrite Hk1 in E2, Hdb2, Ha2.
  assert (Hnone : filter (fun c => c ∉ table_info k1) (map_order ie2) = []).
  { apply filter_none, Forall_forall.
    intros c Hc Hn. apply Hn. unfold k1, table_info. cbn [disk_columns].
    apply elem_of_app. destruct (decide (c ∈ found)) as [Hin|Hout]; [by left|].
    right. apply list_elem_of_filter. split; [exact Hout|].
    by rewrite Hp1, <- Hp2. }
  rewrite Hnone in E2, Ha2. rewrite app_nil_r in E2.
  exists s1, k1, sent1, s2, sent2.
  split; [exact E1|]. split; [exact E2|]. split; [exact Ha2|].
  by rewrite Hdb2, Hdb1.
Qed.

(** X16. Whatever fails and in whatever order the loop runs, start-up keeps
    the columns it finds, in their order, adds none twice, adds only
    columns of the CREATE TABLE statement or keys of the map, and leaves
    the rows of an existing table alone. *)
Theorem startup_keeps_what_it_finds ie k :
  let k' := (NewSimpleMemoryServer ToLower ie k).1.2 in
  table_info k `prefix_of` table_info k'
  /\ (NoDup (table_info k) -> NoDup (table_info k'))
  /\ (forall c, c ∈ table_info k' ->
        c ∈ table_info k \/ c ∈ schema_columns \/ c ∈ map_order ie)
  /\ (disk_columns k <> None -> disk_db k' = disk_db k).
Proof.
  unfold NewSimpleMemoryServer.
  destruct (open_err ie); [simpl; repeat split; auto|].
  destruct (create_err ie); [simpl; repeat split; auto|].
  pose proof (migrate_keeps_columns ie (map_order ie) (create_table k)
                [JournalWAL; CreateTable]) as H.
  destruct (migrate ie (map_order ie) (create_table k) _) as [[r k'] sent].
  destruct H as (Hp & Hin & Hnd & Hd & _).
  assert (Hcreate : table_info k `prefix_of` table_info (create_table k)
                    /\ (NoDup (table_info k) -> NoDup (table_info (create_table k)))
                    /\ (forall c, c ∈ table_info (create_table k) ->
                                  c ∈ table_info k \/ c ∈ schema_columns)
                    /\ (disk_columns k <> None ->
                        disk_db (create_table k) = disk_db k)).
  { unfold create_table, table_info.
    destruct (disk_columns k) as [cols|] eqn:Hk; simpl; rewrite ?Hk.
    - repeat split; auto.
    - repeat split; auto.
      + apply prefix_nil.
      + intros _. by_decision.
      + congruence. }
  destruct Hcreate as (Cp & Cnd & Cin & Cd).
  assert (Goal' : table_info k `prefix_of` table_info k'
                  /\ (NoDup (table_info k) -> NoDup (table_info k'))
                  /\ (forall c, c ∈ table_info k' ->
                        c ∈ table_info k \/ c ∈ schema_columns \/ c ∈ map_order ie)
                  /\ (disk_columns k <> None -> disk_db k' = disk_db k)).
  { split; [by etrans|]. split; [auto|]. split.
    - intros c Hc. destruct (Hin c Hc) as [H|H]; [|auto].
      destruct (Cin c H); auto.
    - intros Hk. rewrite Hd. auto. }
  destruct r; exact Goal'.
Qed.

(** X17. Only a failure to open the file, to create the table or to read the
    rows of the PRAGMA stops start-up: a PRAGMA query or an ALTER TABLE
    that fails does not. *)
Theorem column_failures_are_not_fatal ie k :
  open_err ie = None -> create_err ie = None ->
  forallb (fun col => bool_decide (table_info_rows_err ie col = None))
    (map_order ie) = true ->
  exists s, (NewSimpleMemoryServer ToLower ie k).1.1 = Ok s.
Proof.
  intros Ho Hc Hr. unfold NewSimpleMemoryServer. rewrite Ho, Hc.
  pose proof (migrate_without_rows_err ie (map_order ie) (create_table k)
                [JournalWAL; CreateTable] Hr) as H.
  destruct (migrate ie (map_order ie) (create_table k) _) as [[r k'] sent].
  simpl in H. subst r. simpl. eauto.
Qed.

(** X18. On a file without the table, a start-up without failure gives a
    server that lists nothing, and the first memory added to it is listed
    alone, under the id 1. *)
Theorem first_record_gets_id_1 (quote : gostring -> gostring) ie k e req memory :
  disk_columns k = None ->
  no_faults ie = true -> map_order ie ≡ₚ optional_columns ->
  string_arg req "memory" = Some memory ->
  is_empty (TrimSpace memory) = false ->
  exec_err e = None ->
  exists s,
    (NewSimpleMemoryServer ToLower ie k).1.1 = Ok s
    /\ list_rows (db s) = []
    /\ (SimpleMemoryAdd quote s e req).1
       = NewToolResultText (go "Simple-memory added.")
    /\ list_rows (db (SimpleMemoryAdd quote s e req).2)
       = [(1%Z,
           {| row_title := Some (TrimSpace (GetString req "title" []));
              row_tags := Some (TrimSpace (GetString req "tags" []));
              row_status := Some (TrimSpace (GetString req "status" []));
              row_content := TrimSpace memory;
              row_created_at := now e |})].
Proof.
  intros Hk Hnf Hperm Ha Hm He.
  destruct (NewSimpleMemoryServer_no_faults ie k Hnf Hperm)
    as (s & sent & E & Hdb & _).
  exists s. rewrite E. split; [reflexivity|].
  assert (Hd : db s = {| simple_memories := ∅; sqlite_sequence := 0;
                         issued := issued (disk_db k) |}).
  { rewrite Hdb. unfold create_table. by rewrite Hk. }
  assert (Hl : list_rows (db s) = []).
  { unfold list_rows. rewrite Hd. simpl. by rewrite map_to_list_empty. }
  assert (Hnew : new_rowid (db s) = 1%Z).
  { unfold new_rowid, max_rowid. rewrite Hd. simpl. by rewrite map_fold_empty. }
  assert (Hok : (SimpleMemoryAdd quote s e req).1
                = NewToolResultText (go "Simple-memory added.")).
  { apply string_arg_Some in Ha. unfold SimpleMemoryAdd, exec_insert.
    rewrite (RequireString_string _ _ _ _ Ha), Hm, He, new_rowid_issue, Hnew.
    reflexivity. }
  split; [exact Hl|]. split; [exact Hok|].
  destruct (SimpleMemoryAdd_success_inv quote s e req Hok)
    as (memory' & Ha' & Hm' & _ & _ & Ht & _).
  assert (memory' = memory) by congruence. subst memory'.
  rewrite Hnew in Ht.
  rewrite (list_rows_insert_last (db s) _ 1 _ Ht), Hl; [reflexivity| |].
  - intros i x H. rewrite Hd in H. simpl in H. by rewrite lookup_empty in H.
  - unfold nonblank. simpl. apply TrimSpace_nonblank, Hm.
Qed.

End StartupProperties.

(** ** The two variants on one table *)

Lemma where_content_where_like pat r :
  ContentOnly.where_content pat r = true -> where_like pat r = true.
Proof.
  unfold ContentOnly.where_content, where_like. rewrite (sql_true_or _ (sql_like (Some _) _)).
  intros ->. apply orb_true_r.
Qed.

Lemma where_like_content_only pat r :
  content_only_row r = true ->
  where_like pat r = ContentOnly.where_content pat r.
Proof.
  unfold content_only_row, where_like, ContentOnly.where_content.
  destruct (row_title r), (row_tags r), (row_status r); try discriminate.
  intros _. simpl. destruct (likeFunc pat (row_content r)); reflexivity.
Qed.

Section TwoVariants.

Context (quote : gostring -> gostring).

Lemma scan_contents_spec (l : list (Z * Row)) memories :
  ContentOnly.scan_contents ((fun kv => row_content kv.2) <$> l) memories
  = memories ++ ((fun kv => row_content kv.2) <$> filter kept l).
Proof.
  revert memories. induction l as [|kv l IH]; intros memories.
  - simpl. by rewrite app_nil_r.
  - rewrite fmap_cons. simpl ContentOnly.scan_contents.
    rewrite is_empty_TrimSpace.
    destruct (decide (kept kv)) as [Hk|Hk].
    + rewrite (filter_cons_True _ _ _ Hk).
      unfold kept, nonblank in Hk. rewrite Hk. simpl negb. cbv iota.
      by rewrite IH, fmap_cons, <- app_assoc.
    + rewrite (filter_cons_False _ _ _ Hk).
      unfold kept, nonblank in Hk. apply not_false_is_true in Hk.
      rewrite Hk. simpl negb. cbv iota. apply IH.
Qed.

Lemma order_by_id_filter (P : Z * Row -> Prop) `{!forall x, Decision (P x)}
    (t : gmap Z Row) :
  filter kept (order_by_id (filter P (map_to_list t)))
  = filter P (filter kept (order_by_id (map_to_list t))).
Proof.
  apply ascending_ids_unique.
  - apply select_ascending.
  - rewrite list_filter_filter.
    rewrite <- (filter_all (fun _ => True) (map_to_list t))
      by (apply Forall_forall; auto).
    apply select_ascending.
  - intros x. rewrite !list_elem_of_filter, !elem_of_order_by_id,
      list_elem_of_filter. tauto.
Qed.

(** X19. The content-only List shows the contents of the records the other
    List shows, in the same order; the content-only Search shows the
    contents of those among them whose content the pattern accepts, each
    of which the other Search returns too. *)
Theorem variants_list_the_same_records s c e req queryParam :
  simple_memories (db s) = ContentOnly.rows (ContentOnly.store c) ->
  string_arg req "query" = Some queryParam ->
  is_empty (TrimSpace queryParam) = false ->
  exec_err e = None -> rows_err e = None ->
  let pat := like_pattern (TrimSpace queryParam) in
  (SimpleMemoryList quote s e req).1
  = NewToolResultText (Join (record_json quote <$> list_rows (db s)) [10])
  /\ (ContentOnly.SimpleMemoryList c e req).1
     = NewToolResultText
         (Join ((fun kv => row_content kv.2) <$> list_rows (db s)) [10])
  /\ (ContentOnly.SimpleMemorySearch quote c e req).1
     = NewToolResultText
         (search_text
            ((fun kv => row_content kv.2)
               <$> filter (ContentOnly.content_selected pat) (list_rows (db s))))
  /\ forall kv,
       kv ∈ filter (ContentOnly.content_selected pat) (list_rows (db s)) ->
       kv ∈ search_rows (db s) (TrimSpace queryParam).
Proof.
  intros Ht Ha Hq He Hr pat. apply string_arg_Some in Ha.
  split; [by rewrite SimpleMemoryList_ok|]. split; [|split].
  - unfold ContentOnly.SimpleMemoryList, ContentOnly.query_all.
    rewrite He, Hr. simpl ContentOnly.rows. rewrite scan_contents_spec.
    simpl app. rewrite <- Ht. fold (list_rows (db s)).
    destruct (_ <$> list_rows (db s)); reflexivity.
  - unfold ContentOnly.SimpleMemorySearch, ContentOnly.query_like.
    rewrite (RequireString_string _ _ _ _ Ha), Hq, He, Hr.
    simpl ContentOnly.rows. rewrite scan_contents_spec. simpl app.
    fold pat. rewrite <- Ht, order_by_id_filter. fold (list_rows (db s)).
    unfold search_text.
    destruct (_ <$> filter _ (list_rows (db s))); reflexivity.
  - intros [id r] Hin. apply list_elem_of_filter in Hin as [Hsel Hin].
    apply elem_of_list_rows in Hin as [Hl Hnb].
    apply elem_of_search_rows. repeat split; [exact Hl | exact Hnb |].
    apply where_content_where_like. exact Hsel.
Qed.

Lemma ContentOnly_Delete_ok c e req queryParam :
  Arguments req !! "query" = Some (ArgString queryParam) ->
  is_empty (TrimSpace queryParam) = false ->
  exec_err e = None ->
  let pat := like_pattern (TrimSpace queryParam) in
  let t := ContentOnly.rows (ContentOnly.store c) in
  (ContentOnly.SimpleMemoryDelete quote c e req).1
  = NewToolResultText
      (deleted_text
         (Z.of_nat (size (filter (ContentOnly.content_selected pat) t))))
  /\ ContentOnly.rows
       (ContentOnly.store (ContentOnly.SimpleMemoryDelete quote c e req).2)
     = filter (fun kv => ~ ContentOnly.content_selected pat kv) t.
Proof.
  intros Ha Hq He pat t.
  unfold ContentOnly.SimpleMemoryDelete, ContentOnly.exec_delete.
  rewrite (RequireString_string _ _ _ _ Ha), Hq, He.
  fold pat. simpl ContentOnly.rows. fold t. unfold deleted_text.
  destruct (Z.of_nat (size (filter (ContentOnly.content_selected pat) t)) =? 0)%Z;
    destruct (ContentOnly.logging_disabled c); simpl;
    unfold ContentOnly.Printf; destruct (log_ok e); simpl; auto.
Qed.

(** X20. On one table and one query, Delete of the four-field variant removes
    every record the content-only Delete removes; when no record of the
    table has a title, tags or a status, the two remove the same records
    and give the same answer. *)
Theorem variants_delete_alike s c e req queryParam :
  simple_memories (db s) = ContentOnly.rows (ContentOnly.store c) ->
  string_arg req "query" = Some queryParam ->
  is_empty (TrimSpace queryParam) = false ->
  exec_err e = None ->
  let s' := (SimpleMemoryDelete quote s e req).2 in
  let c' := (ContentOnly.SimpleMemoryDelete quote c e req).2 in
  (forall id r,
     simple_memories (db s') !! id = Some r ->
     ContentOnly.rows (ContentOnly.store c') !! id = Some r)
  /\ (map_Forall (fun _ r => content_only_row r = true) (simple_memories (db s)) ->
      simple_memories (db s') = ContentOnly.rows (ContentOnly.store c')
      /\ (SimpleMemoryDelete quote s e req).1
         = (ContentOnly.SimpleMemoryDelete quote c e req).1).
Proof.
  intros Ht Ha Hq He s' c'. apply string_arg_Some in Ha.
  destruct (SimpleMemoryDelete_ok quote s _ _ _ Ha Hq He) as [Hres Htab].
  destruct (ContentOnly_Delete_ok c _ _ _ Ha Hq He) as [Cres Ctab].
  fold s' in Htab. fold c' in Ctab. rewrite <- Ht in Cres, Ctab.
  set (pat := like_pattern (TrimSpace queryParam)) in *.
  split.
  - intros id r. rewrite Htab, Ctab, !map_lookup_filter_Some.
    intros [Hl Hn]. split; [exact Hl|].
    intros Hc. apply Hn. unfold selected. simpl.
    apply where_content_where_like, Hc.
  - intros Hall.
    assert (Hsame : forall i x,
               simple_memories (db s) !! i = Some x ->
               (selected pat (i, x) <-> ContentOnly.content_selected pat (i, x))).
    { intros i x Hix. unfold selected, ContentOnly.content_selected. simpl.
      by rewrite (where_like_content_only _ _ (Hall _ _ Hix)). }
    assert (Hf : filter (selected pat) (simple_memories (db s))
                 = filter (ContentOnly.content_selected pat) (simple_memories (db s))).
    { apply map_filter_ext. exact Hsame. }
    assert (Hn : filter (fun kv => ~ selected pat kv) (simple_memories (db s))
                 = filter (fun kv => ~ ContentOnly.content_selected pat kv)
                     (simple_memories (db s))).
    { apply map_filter_ext. intros i x Hix. by rewrite (Hsame _ _ Hix). }
    split.
    + by rewrite Htab, Ctab, Hn.
    + by rewrite Hres, Cres, Hf.
Qed.

Lemma ContentOnly_Add_success_inv c e req :
  (ContentOnly.SimpleMemoryAdd quote c e req).1
  = NewToolResultText (go "Simple-memory added.") ->
  exists memory,
    string_arg req "memory" = Some memory
    /\ is_empty (TrimSpace memory) = false
    /\ simple_memories
         (ContentOnly.as_db
            (ContentOnly.store (ContentOnly.SimpleMemoryAdd quote c e req).2))
       = <[new_rowid (ContentOnly.as_db (ContentOnly.store c)) :=
             {| row_title := None; row_tags := None; row_status := None;
                row_content := TrimSpace memory; row_created_at := now e |}]>
           (simple_memories (ContentOnly.as_db (ContentOnly.store c))).
Proof.
  unfold ContentOnly.SimpleMemoryAdd, RequireString, ContentOnly.exec_insert,
    string_arg.
  destruct (Arguments req !! "memory") as [[memory|]|] eqn:Ha;
    [|discriminate|discriminate].
  destruct (is_empty (TrimSpace memory)) eqn:Hm; [discriminate|].
  destruct (exec_err e) eqn:He; [discriminate|].
  change (ContentOnly.next_rowid
            (ContentOnly.send (ContentOnly.InsertContent (TrimSpace memory))
               (ContentOnly.store c)))
    with (new_rowid (ContentOnly.as_db (ContentOnly.store c))).
  destruct (_ <? _)%Z eqn:Hfull; [discriminate|].
  intros _. exists memory. split; [reflexivity|]. split; [exact Hm|].
  simpl. unfold ContentOnly.Printf.
  destruct (ContentOnly.logging_disabled c), (log_ok e); reflexivity.
Qed.

(** X21. A memory added by the content-only variant goes into the table with
    NULL title, tags and status, under a fresh id above all others; the
    other variant lists it last, with the three fields empty, and finds
    it by its content only. *)
Theorem content_only_Add_is_listed c e req :
  (ContentOnly.SimpleMemoryAdd quote c e req).1
  = NewToolResultText (go "Simple-memory added.") ->
  let d := ContentOnly.as_db (ContentOnly.store c) in
  let d' := ContentOnly.as_db
              (ContentOnly.store (ContentOnly.SimpleMemoryAdd quote c e req).2) in
  exists id memory r,
    string_arg req "memory" = Some memory
    /\ r = {| row_title := None; row_tags := None; row_status := None;
              row_content := TrimSpace memory; row_created_at := now e |}
    /\ simple_memories d !! id = None
    /\ simple_memories d' = <[id := r]> (simple_memories d)
    /\ list_rows d' = list_rows d ++ [(id, r)]
    /\ record_json quote (id, r)
       = mem_json quote id [] [] [] (TrimSpace memory) (now e)
    /\ forall pat, where_like pat r = likeFunc pat (TrimSpace memory).
Proof.
  intros Hok d d'.
  destruct (ContentOnly_Add_success_inv c e req Hok) as (memory & Ha & Hm & Ht).
  fold d d' in Ht.
  set (r := {| row_title := None; row_tags := None; row_status := None;
               row_content := TrimSpace memory; row_created_at := now e |}) in *.
  exists (new_rowid d), memory, r.
  split; [exact Ha|]. split; [reflexivity|].
  split; [apply new_rowid_fresh|]. split; [exact Ht|]. split; [|split].
  - apply list_rows_insert_last; [exact Ht | apply new_rowid_above |].
    unfold nonblank. simpl. apply TrimSpace_nonblank, Hm.
  - reflexivity.
  - intros pat. unfold where_like. simpl.
    destruct (likeFunc pat (TrimSpace memory)); reflexivity.
Qed.

End TwoVariants.

(** ** The further properties on sample data *)

(** An Add to three records: the fourth is listed last. *)
Lemma Add_appends_to_List_witness :
  exists id memory,
    string_arg req_add "memory" = Some memory
    /\ Forall (fun k => (k < id)%Z) ((list_rows (db server_three)).*1)
    /\ list_rows (db (SimpleMemoryAdd quote_printable server_three env_ok req_add).2)
       = list_rows (db server_three)
         ++ [(id,
              {| row_title := Some (TrimSpace (GetString req_add "title" []));
                 row_tags := Some (TrimSpace (GetString req_add "tags" []));
                 row_status := Some (TrimSpace (GetString req_add "status" []));
                 row_content := TrimSpace memory;
                 row_created_at := now env_ok |})].
Proof.
  apply (Add_appends_to_List quote_printable server_three env_ok req_add).
  by_evaluation.
Defined.

(** Search of [temp] against List on three records. *)
Lemma Search_is_filtered_List_witness :
  (SimpleMemoryList quote_printable server_three env_ok req_temp).1
  = NewToolResultText
      (Join (record_json quote_printable <$> list_rows (db server_three)) [10])
  /\ (SimpleMemorySearch quote_printable server_three env_ok req_temp).1
     = NewToolResultText
         (search_text
            (record_json quote_printable
               <$> filter (selected (like_pattern (TrimSpace (go "temp"))))
                     (list_rows (db server_three)))).
Proof.
  apply (Search_is_filtered_List quote_printable server_three env_ok req_temp
           (go "temp")).
  - by_evaluation.
  - by_evaluation.
  - reflexivity.
  - reflexivity.
Defined.

(** Delete of [draft] where the record titled [draft] has blank content. *)
Lemma Delete_removes_exactly_selected_witness :
  let s' := (SimpleMemoryDelete quote_printable server_blank env_ok
               (with_arg "query" "draft")).2 in
  (forall id r,
     simple_memories (db s') !! id = Some r <->
     (simple_memories (db server_blank) !! id = Some r
      /\ where_like (like_pattern (TrimSpace (go "draft"))) r = false))
  /\ sqlite_sequence (db s') = sqlite_sequence (db server_blank)
  /\ (SimpleMemoryDelete quote_printable server_blank env_ok
        (with_arg "query" "draft")).1
     = NewToolResultText
         (deleted_text
            (Z.of_nat (size (simple_memories (db server_blank)))
             - Z.of_nat (size (simple_memories (db s')))))%Z.
Proof.
  apply (Delete_removes_exactly_selected quote_printable server_blank env_ok
           (with_arg "query" "draft") (go "draft")).
  - by_evaluation.
  - by_evaluation.
  - reflexivity.
Defined.

(** Delete of [temp], then Search and Delete of [temp] again. *)
Lemma Delete_leaves_no_match_witness :
  let s' := (SimpleMemoryDelete quote_printable server_three env_ok req_temp).2 in
  (SimpleMemorySearch quote_printable s' env_ok req_temp).1
  = NewToolResultText (go "No matching simple-memories found.")
  /\ (SimpleMemoryDelete quote_printable s' env_ok req_temp).1
     = NewToolResultText (go "No simple-memories deleted (no match).")
  /\ simple_memories (db (SimpleMemoryDelete quote_printable s' env_ok req_temp).2)
     = simple_memories (db s').
Proof.
  apply (Delete_leaves_no_match quote_printable server_three env_ok env_ok
           req_temp (go "temp")).
  - by_evaluation.
  - by_evaluation.
  - reflexivity.
  - reflexivity.
  - reflexivity.
Defined.

(** A run of five calls from three records. *)
Lemma ids_never_reused_witness :
  grown_from (db server_three)
    (db (after_calls quote_printable server_three some_calls))
  /\ ids_bounded (db (after_calls quote_printable server_three some_calls)).
Proof.
  apply (ids_never_reused quote_printable server_three some_calls).
  by_decision.
Defined.

Lemma no_blank_record_stored_witness :
  map_Forall (fun _ r => nonblank r)
    (simple_memories (db (after_calls quote_printable server_three some_calls)))
  /\ forall id r,
       ((id, r) ∈ list_rows (db (after_calls quote_printable server_three some_calls)))
       <-> simple_memories
             (db (after_calls quote_printable server_three some_calls)) !! id
           = Some r.
Proof.
  apply (no_blank_record_stored quote_printable server_three some_calls).
  by_decision.
Defined.


(** The queries [temp] and [TEMP], the second after a blank. *)
Lemma query_case_is_ignored_witness :
  (SimpleMemorySearch quote_printable server_three env_ok req_temp).1
  = (SimpleMemorySearch quote_printable server_three env_ok req_TEMP).1
  /\ (SimpleMemoryDelete quote_printable server_three env_ok req_temp).1
     = (SimpleMemoryDelete quote_printable server_three env_ok req_TEMP).1
  /\ simple_memories
       (db (SimpleMemoryDelete quote_printable server_three env_ok req_temp).2)
     = simple_memories
         (db (SimpleMemoryDelete quote_printable server_three env_ok req_TEMP).2).
Proof.
  apply (query_case_is_ignored quote_printable server_three env_ok
           req_temp req_TEMP (go "temp") (go " TEMP")).
  - by_evaluation.
  - by_evaluation.
  - by_evaluation.
Defined.

(** A memory with two blanks inside and blanks around it. *)
Lemma Add_trims_only_the_ends_witness :
  exists id memory r,
    string_arg req_add "memory" = Some memory
    /\ simple_memories
         (db (SimpleMemoryAdd quote_printable server_three env_ok req_add).2) !! id
       = Some r
    /\ trimming_of memory (row_content r)
    /\ trimming_of (GetString req_add "title" []) (surface (row_title r))
    /\ trimming_of (GetString req_add "tags" []) (surface (row_tags r))
    /\ trimming_of (GetString req_add "status" []) (surface (row_status r)).
Proof.
  apply (Add_trims_only_the_ends quote_printable server_three env_ok req_add).
  by_evaluation.
Defined.

(** The query of two [%]. *)
Lemma percent_query_selects_everything_witness :
  (SimpleMemoryDelete quote_printable server_three env_ok req_percent).1
  = NewToolResultText
      (deleted_text (Z.of_nat (size (simple_memories (db server_three)))))
  /\ simple_memories
       (db (SimpleMemoryDelete quote_printable server_three env_ok req_percent).2)
     = ∅
  /\ (SimpleMemorySearch quote_printable server_three env_ok req_percent).1
     = NewToolResultText
         (search_text (record_json quote_printable <$> list_rows (db server_three))).
Proof.
  apply (percent_query_selects_everything quote_printable server_three env_ok
           req_percent (go "%%")).
  - by_evaluation.
  - by_evaluation.
  - by_evaluation.
  - reflexivity.
  - reflexivity.
Defined.

(** Start-up on a file written by the content-only variant. *)
Lemma startup_adds_missing_columns_witness :
  let ie := start_ok ["status"; "title"; "tags"]%string in
  let found := table_info (create_table disk_content_only) in
  let missing := filter (fun c => c ∉ found) (map_order ie) in
  exists s k' sent,
    NewSimpleMemoryServer ToLowerASCII ie disk_content_only = (Ok s, k', sent)
    /\ db s = disk_db (create_table disk_content_only)
    /\ disk_db k' = disk_db (create_table disk_content_only)
    /\ logger s = []
    /\ disk_columns k' = Some (found ++ missing)
    /\ columns_added sent = missing
    /\ forall c, c ∈ optional_columns -> c ∈ table_info k'.
Proof.
  apply (startup_adds_missing_columns ToLowerASCII
           (start_ok ["status"; "title"; "tags"]%string) disk_content_only).
  - by_evaluation.
  - by_decision.
Defined.

(** Two start-ups that visit the columns in different orders. *)
Lemma startup_twice_changes_nothing_witness :
  exists s1 k1 sent1 s2 sent2,
    NewSimpleMemoryServer ToLowerASCII
      (start_ok ["status"; "title"; "tags"]%string) disk_content_only
    = (Ok s1, k1, sent1)
    /\ NewSimpleMemoryServer ToLowerASCII
         (start_ok ["tags"; "status"; "title"]%string) k1
       = (Ok s2, k1, sent2)
    /\ columns_added sent2 = []
    /\ db s2 = db s1.
Proof.
  apply (startup_twice_changes_nothing ToLowerASCII
           (start_ok ["status"; "title"; "tags"]%string)
           (start_ok ["tags"; "status"; "title"]%string) disk_content_only).
  - by_evaluation.
  - by_decision.
  - by_evaluation.
  - by_decision.
Defined.

(** A start-up whose PRAGMA queries and ALTER TABLE statements all fail. *)
Lemma column_failures_are_not_fatal_witness :
  exists s,
    (NewSimpleMemoryServer ToLowerASCII start_degraded disk_content_only).1.1
    = Ok s.
Proof.
  apply (column_failures_are_not_fatal ToLowerASCII start_degraded
           disk_content_only).
  - reflexivity.
  - reflexivity.
  - by_evaluation.
Defined.

(** A first Add after a start-up on a new file. *)
Lemma first_record_gets_id_1_witness :
  exists s,
    (NewSimpleMemoryServer ToLowerASCII
       (start_ok ["title"; "tags"; "status"]%string) disk_new).1.1 = Ok s
    /\ list_rows (db s) = []
    /\ (SimpleMemoryAdd quote_printable s env_ok req_add).1
       = NewToolResultText (go "Simple-memory added.")
    /\ list_rows (db (SimpleMemoryAdd quote_printable s env_ok req_add).2)
       = [(1%Z,
           {| row_title := Some (TrimSpace (GetString req_add "title" []));
              row_tags := Some (TrimSpace (GetString req_add "tags" []));
              row_status := Some (TrimSpace (GetString req_add "status" []));
              row_content := TrimSpace (go "  keep  D ");
              row_created_at := now env_ok |})].
Proof.
  apply (first_record_gets_id_1 ToLowerASCII quote_printable
           (start_ok ["title"; "tags"; "status"]%string) disk_new env_ok req_add
           (go "  keep  D ")).
  - reflexivity.
  - by_evaluation.
  - by_decision.
  - by_evaluation.
  - by_evaluation.
  - reflexivity.
Defined.

(** The two variants on the three records, for the query [temp]. *)
Lemma variants_list_the_same_records_witness :
  let pat := like_pattern (TrimSpace (go "temp")) in
  (SimpleMemoryList quote_printable server_three env_ok req_temp).1
  = NewToolResultText
      (Join (record_json quote_printable <$> list_rows (db server_three)) [10])
  /\ (ContentOnly.SimpleMemoryList content_only_three env_ok req_temp).1
     = NewToolResultText
         (Join ((fun kv => row_content kv.2) <$> list_rows (db server_three)) [10])
  /\ (ContentOnly.SimpleMemorySearch quote_printable content_only_three env_ok
        req_temp).1
     = NewToolResultText
         (search_text
            ((fun kv => row_content kv.2)
               <$> filter (ContentOnly.content_selected pat)
                     (list_rows (db server_three))))
  /\ forall kv,
       kv ∈ filter (ContentOnly.content_selected pat) (list_rows (db server_three)) ->
       kv ∈ search_rows (db server_three) (TrimSpace (go "temp")).
Proof.
  apply (variants_list_the_same_records quote_printable server_three
           content_only_three env_ok req_temp (go "temp")).
  - reflexivity.
  - by_evaluation.
  - by_evaluation.
  - reflexivity.
  - reflexivity.
Defined.

(** The two Deletes of [temp] on a table the content-only variant wrote. *)
Lemma variants_delete_alike_witness :
  let s := server_of old_table 4 in
  let c := ContentOnly.server_on old_table 4 in
  let s' := (SimpleMemoryDelete quote_printable s env_ok req_temp).2 in
  let c' := (ContentOnly.SimpleMemoryDelete quote_printable c env_ok req_temp).2 in
  (forall id r,
     simple_memories (db s') !! id = Some r ->
     ContentOnly.rows (ContentOnly.store c') !! id = Some r)
  /\ (map_Forall (fun _ r => content_only_row r = true) (simple_memories (db s)) ->
      simple_memories (db s') = ContentOnly.rows (ContentOnly.store c')
      /\ (SimpleMemoryDelete quote_printable s env_ok req_temp).1
         = (ContentOnly.SimpleMemoryDelete quote_printable c env_ok req_temp).1).
Proof.
  apply (variants_delete_alike quote_printable (server_of old_table 4)
           (ContentOnly.server_on old_table 4) env_ok req_temp (go "temp")).
  - reflexivity.
  - by_evaluation.
  - by_evaluation.
  - reflexivity.
Defined.

(** An Add of the content-only variant on the three records. *)
Lemma content_only_Add_is_listed_witness :
  let d := ContentOnly.as_db (ContentOnly.store content_only_three) in
  let d' := ContentOnly.as_db
              (ContentOnly.store
                 (ContentOnly.SimpleMemoryAdd quote_printable content_only_three
                    env_ok req_add).2) in
  exists id memory r,
    string_arg req_add "memory" = Some memory
    /\ r = {| row_title := None; row_tags := None; row_status := None;
              row_content := TrimSpace memory; row_created_at := now env_ok |}
    /\ simple_memories d !! id = None
    /\ simple_memories d' = <[id := r]> (simple_memories d)
    /\ list_rows d' = list_rows d ++ [(id, r)]
    /\ record_json quote_printable (id, r)
       = mem_json quote_printable id [] [] [] (TrimSpace memory) (now env_ok)
    /\ forall pat, where_like pat r = likeFunc pat (TrimSpace memory).
Proof.
  apply (content_only_Add_is_listed quote_printable content_only_three env_ok
           req_add).
  by_evaluation.
Defined.

(** ** Further runs of start-up and of the content-only variant *)

(** On the file of the content-only variant the three columns are added
    behind the ones found, in the order of the visits. *)
Example startup_on_content_only_file :
  (NewSimpleMemoryServer ToLowerASCII
     (start_ok ["status"; "title"; "tags"]%string) disk_content_only).1.2
  = {| disk_columns :=
         Some ["id"; "content"; "created_at"; "status"; "title"; "tags"]%string;
       disk_db := disk_db disk_content_only |}.
Proof. by_evaluation. Qed.

(** When the PRAGMA queries fail, ALTER TABLE is sent for each column,
    present or not. *)
Example startup_degraded_sends_every_alter :
  columns_added
    (NewSimpleMemoryServer ToLowerASCII start_degraded
       (create_table disk_new)).2
  = ["status"; "title"; "tags"]%string
  /\ (NewSimpleMemoryServer ToLowerASCII start_degraded
        (create_table disk_new)).1.2 = create_table disk_new.
Proof. split; by_evaluation. Qed.
